(** * JobFit-AI: the analysis pipeline and the resume reconstruction

    A shallow embedding of [JobFit-AI.py]: the language-model client
    ([LLMClient]), the three analysis stages ([JobAnalyzer]), the
    completeness check of [main], and the two resume writers
    ([generate_updated_resume], [generate_updated_resume1]).

    Conventions.
    - A Python [str] is a Rocq [string]: the bytes of its UTF-8 encoding.
      The character operations ([strip], [upper], [isupper], [splitlines])
      are the ASCII ones; a byte above 127 is an uncased character that is
      neither white space nor a line break.
    - A call that may raise returns an [outcome]: [Ret v] or [Raise e].
    - The library functions the program calls ([json.loads], [json.dumps],
      the generation backend) are parameters of the client; [Json.json_loads]
      is a model of the first one, used to run the program on concrete text.
    - The PDF writers hand a list of flowables to the typesetter
      ([doc.build(content)]); the embedding returns that list. *)

From Stdlib Require Import String Ascii List Bool Arith ZArith NArith QArith Lia.
Import ListNotations.
Local Open Scope string_scope.
Local Open Scope list_scope.

Set Implicit Arguments.

(* ===================================================================== *)
(** * Python string operations *)
(* ===================================================================== *)

Module PyStr.

Definition code (c : ascii) : nat := nat_of_ascii c.

Definition between (lo hi n : nat) : bool := (lo <=? n)%nat && (n <=? hi)%nat.

(** [str.isspace] on one ASCII character: TAB, LF, VT, FF, CR, the four
    separators FS GS RS US and the blank. *)
Definition isspace (c : ascii) : bool :=
  between 9 13 (code c) || between 28 32 (code c).

Definition islower (c : ascii) : bool := between 97 122 (code c).
Definition isupper_char (c : ascii) : bool := between 65 90 (code c).

Definition upper_char (c : ascii) : ascii :=
  if islower c then ascii_of_nat (code c - 32) else c.

(** [s.upper()] *)
Fixpoint upper (s : string) : string :=
  match s with
  | EmptyString => EmptyString
  | String c s' => String (upper_char c) (upper s')
  end.

Fixpoint existsb_char (p : ascii -> bool) (s : string) : bool :=
  match s with
  | EmptyString => false
  | String c s' => p c || existsb_char p s'
  end.

(** [s.isupper()]: at least one cased character and no lower-case one. *)
Definition isupper (s : string) : bool :=
  existsb_char isupper_char s && negb (existsb_char islower s).

(** [s.lstrip()], [s.rstrip()], [s.strip()] *)
Fixpoint lstrip (s : string) : string :=
  match s with
  | EmptyString => EmptyString
  | String c s' => if isspace c then lstrip s' else s
  end.

Fixpoint rstrip (s : string) : string :=
  match s with
  | EmptyString => EmptyString
  | String c s' =>
      match rstrip s' with
      | EmptyString => if isspace c then EmptyString else String c EmptyString
      | r => String c r
      end
  end.

Definition strip (s : string) : string := rstrip (lstrip s).

(** [needle in hay] *)
Fixpoint contains (needle hay : string) : bool :=
  prefix needle hay ||
  match hay with
  | EmptyString => false
  | String _ hay' => contains needle hay'
  end.

(** Python truth value of a string. *)
Definition nonempty (s : string) : bool :=
  match s with EmptyString => false | _ => true end.

(** The ASCII line boundaries of [str.splitlines]: LF, VT, FF, CR, FS, GS,
    RS (CR LF counts once). *)
Definition is_linebreak (c : ascii) : bool :=
  between 10 13 (code c) || between 28 30 (code c).

Definition LF : ascii := ascii_of_nat 10.
Definition CR : ascii := ascii_of_nat 13.

Definition cons_line (c : ascii) (ls : list string) : list string :=
  match ls with
  | [] => [String c EmptyString]
  | l :: ls' => String c l :: ls'
  end.

(** [s.splitlines()] *)
Fixpoint splitlines (s : string) : list string :=
  match s with
  | EmptyString => []
  | String c s' =>
      if is_linebreak c then
        match s' with
        | String c' s'' =>
            if Ascii.eqb c CR && Ascii.eqb c' LF
            then EmptyString :: splitlines s''
            else EmptyString :: splitlines s'
        | EmptyString => [EmptyString]
        end
      else cons_line c (splitlines s')
  end.

(** [s.split("\n")] *)
Fixpoint split_nl (s : string) : list string :=
  match s with
  | EmptyString => [EmptyString]
  | String c s' =>
      if Ascii.eqb c LF then EmptyString :: split_nl s'
      else cons_line c (split_nl s')
  end.

(** [sep.join(parts)] *)
Definition join (sep : string) (parts : list string) : string :=
  String.concat sep parts.

(** Substrings, as a relation. *)
Definition substring_of (needle hay : string) : Prop :=
  exists pre post : string, hay = (pre ++ needle ++ post)%string.

(** The head of a string is no white space. *)
Definition left_trimmed (s : string) : Prop :=
  match s with
  | String c _ => isspace c = false
  | EmptyString => True
  end.

(** Does [c] occur in [s]? *)
Definition has_char (c : ascii) (s : string) : bool :=
  existsb_char (Ascii.eqb c) s.

(** Is [s] white space only? *)
Fixpoint all_space (s : string) : bool :=
  match s with
  | EmptyString => true
  | String c s' => isspace c && all_space s'
  end.

(** All prefixes, all suffixes and all substrings of a string. *)
Fixpoint prefixes (s : string) : list string :=
  EmptyString ::
  match s with
  | EmptyString => []
  | String c s' => map (String c) (prefixes s')
  end.

Fixpoint suffixes (s : string) : list string :=
  s ::
  match s with
  | EmptyString => []
  | String _ s' => suffixes s'
  end.

Definition substrings (s : string) : list string :=
  flat_map prefixes (suffixes s).

End PyStr.

(* ===================================================================== *)
(** * Exceptions *)
(* ===================================================================== *)

(** The exception classes that occur; all of them derive from [Exception].
    [JSONDecodeError] is what [json.loads] raises on text that is not JSON,
    [ValueError] what the client raises on a missing key; [OtherError]
    stands for whatever the backend library raises. *)
Inductive exn : Type :=
| JSONDecodeError
| ValueError (msg : string)
| OtherError (name : string).

Inductive outcome (A : Type) : Type :=
| Ret (a : A)
| Raise (e : exn).

Arguments Ret {A} a.
Arguments Raise {A} e.

Module Outcome.

Definition bind {A B} (m : outcome A) (k : A -> outcome B) : outcome B :=
  match m with
  | Ret a => k a
  | Raise e => Raise e
  end.

Definition map {A B} (f : A -> B) (m : outcome A) : outcome B :=
  bind m (fun a => Ret (f a)).

(** [except Exception]: every class of [exn] is caught. *)
Definition is_Exception (e : exn) : bool := true.

(** [except json.JSONDecodeError] *)
Definition is_JSONDecodeError (e : exn) : bool :=
  match e with JSONDecodeError => true | _ => false end.

(** [try: body  except cls: handler] *)
Definition try_except {A} (body : outcome A) (cls : exn -> bool)
           (handler : outcome A) : outcome A :=
  match body with
  | Ret a => Ret a
  | Raise e => if cls e then handler else Raise e
  end.

(** Evaluating a list of computations in order; the first raise wins. *)
Fixpoint sequence {A} (ms : list (outcome A)) : outcome (list A) :=
  match ms with
  | [] => Ret []
  | m :: ms' => bind m (fun a => bind (sequence ms') (fun l => Ret (a :: l)))
  end.

End Outcome.

(* ===================================================================== *)
(** * JSON values and [json.loads] *)
(* ===================================================================== *)

Module Json.

(** What [json.loads] builds: [None], [bool], [int], [float] (kept as the
    literal that was read, so that no rounding is modelled), [str], [list]
    and [dict] (keys in insertion order, each key once). *)
#[warnings="-register-all"]
Inductive json : Type :=
| JNull
| JBool (b : bool)
| JInt (z : Z)
| JFloat (literal : string)
| JString (s : string)
| JArray (items : list json)
| JObject (members : list (string * json)).

(** A float literal whose digits before the exponent are all zero. A literal
    that is only rounded to zero counts as non-zero here. *)
Definition float_is_zero (literal : string) : bool :=
  negb (PyStr.existsb_char (fun c => PyStr.between 49 57 (PyStr.code c))
          (match index 0 "e" literal, index 0 "E" literal with
           | Some n, _ => substring 0 n literal
           | None, Some n => substring 0 n literal
           | None, None => literal
           end))
  && negb (literal =? "NaN") && negb (literal =? "Infinity")
  && negb (literal =? "-Infinity").

(** Python truth value: [None], [False], zero, the empty string, list and
    dict are false. *)
Definition truthy (v : json) : bool :=
  match v with
  | JNull => false
  | JBool b => b
  | JInt z => negb (Z.eqb z 0)
  | JFloat l => negb (float_is_zero l)
  | JString s => PyStr.nonempty s
  | JArray l => match l with [] => false | _ => true end
  | JObject m => match m with [] => false | _ => true end
  end.

Definition is_object (v : json) : bool :=
  match v with JObject _ => true | _ => false end.

(** The empty mapping [{}]. *)
Definition empty_mapping : json := JObject [].

(** [d[k] = v] on an insertion-ordered dict. *)
Fixpoint dict_set (k : string) (v : json) (m : list (string * json))
  : list (string * json) :=
  match m with
  | [] => [(k, v)]
  | (k', v') :: m' =>
      if k' =? k then (k', v) :: m' else (k', v') :: dict_set k v m'
  end.

(** [dict(pairs)] *)
Definition dict_of_pairs (pairs : list (string * json)) : list (string * json) :=
  fold_left (fun m kv => dict_set (fst kv) (snd kv) m) pairs [].

(** ** The scanner *)

Inductive parsed (A : Type) : Type :=
| Parsed (a : A) (rest : string)
| Malformed
| Exhausted.

Arguments Parsed {A} a rest.
Arguments Malformed {A}.
Arguments Exhausted {A}.

Definition parsed_map {A B} (f : A -> B) (p : parsed A) : parsed B :=
  match p with
  | Parsed a rest => Parsed (f a) rest
  | Malformed => Malformed
  | Exhausted => Exhausted
  end.

(** A scanner's answer on the text [s]: it did not run out of fuel, and what
    it leaves is shorter than [s]. *)
Definition consumes {A} (s : string) (p : parsed A) : Prop :=
  match p with
  | Parsed _ rest => (String.length rest < String.length s)%nat
  | Malformed => True
  | Exhausted => False
  end.

(** JSON white space: blank, TAB, LF, CR. *)
Definition is_ws (c : ascii) : bool :=
  let n := PyStr.code c in
  (n =? 32)%nat || (n =? 9)%nat || (n =? 10)%nat || (n =? 13)%nat.

Fixpoint skip_ws (s : string) : string :=
  match s with
  | String c s' => if is_ws c then skip_ws s' else s
  | EmptyString => EmptyString
  end.

Definition is_digit (c : ascii) : bool := PyStr.between 48 57 (PyStr.code c).

Definition hexval (c : ascii) : option N :=
  let n := N_of_ascii c in
  if ((48 <=? n) && (n <=? 57))%N then Some (n - 48)%N
  else if ((65 <=? n) && (n <=? 70))%N then Some (n - 55)%N
  else if ((97 <=? n) && (n <=? 102))%N then Some (n - 87)%N
  else None.

Definition byte (n : N) : string := String (ascii_of_N n) EmptyString.

(** The UTF-8 bytes of a code point. *)
Definition utf8 (cp : N) : string :=
  if (cp <? 128)%N then byte cp
  else if (cp <? 2048)%N then
    byte (192 + cp / 64) ++ byte (128 + cp mod 64)
  else if (cp <? 65536)%N then
    byte (224 + cp / 4096) ++ byte (128 + (cp / 64) mod 64)
    ++ byte (128 + cp mod 64)
  else
    byte (240 + cp / 262144) ++ byte (128 + (cp / 4096) mod 64)
    ++ byte (128 + (cp / 64) mod 64) ++ byte (128 + cp mod 64).

Definition is_high_surrogate (u : N) : bool := ((55296 <=? u) && (u <=? 56319))%N.
Definition is_low_surrogate (u : N) : bool := ((56320 <=? u) && (u <=? 57343))%N.

Definition join_surrogates (hi lo : N) : N :=
  (65536 + ((hi - 55296) * 1024 + (lo - 56320)))%N.

(** The double quote. *)
Definition dquote : ascii := ascii_of_nat 34.

(** The one-letter escapes. *)
Definition backslash (c : ascii) : option ascii :=
  if Ascii.eqb c dquote then Some dquote
  else
    match c with
    | "\"%char => Some "\"%char
    | "/"%char => Some "/"%char
    | "b"%char => Some (ascii_of_nat 8)
    | "f"%char => Some (ascii_of_nat 12)
    | "n"%char => Some (ascii_of_nat 10)
    | "r"%char => Some (ascii_of_nat 13)
    | "t"%char => Some (ascii_of_nat 9)
    | _ => None
    end.

Inductive scan_state : Type :=
| Plain
| Escaped
| Hex (seen : nat) (acc : N).

Definition flush (hi : option N) : string :=
  match hi with Some h => utf8 h | None => EmptyString end.

Definition emit (out : string) (p : parsed string) : parsed string :=
  parsed_map (fun s => (out ++ s)%string) p.

(** [scanstring] in strict mode, from just after the opening quote. [hi] is
    a high surrogate read from a [\u] escape and waiting for its partner. *)
Fixpoint scanstring (st : scan_state) (hi : option N) (s : string)
  : parsed string :=
  match s with
  | EmptyString => Malformed
  | String c s' =>
      match st with
      | Plain =>
          if Ascii.eqb c dquote then Parsed (flush hi) s'
          else if Ascii.eqb c "\" then scanstring Escaped hi s'
          else if (PyStr.code c <? 32)%nat then Malformed
          else emit (flush hi ++ String c EmptyString) (scanstring Plain None s')
      | Escaped =>
          if Ascii.eqb c "u" then scanstring (Hex 0 0%N) hi s'
          else match backslash c with
               | Some d => emit (flush hi ++ String d EmptyString)
                             (scanstring Plain None s')
               | None => Malformed
               end
      | Hex seen acc =>
          match hexval c with
          | None => Malformed
          | Some d =>
              let u := (16 * acc + d)%N in
              if (seen <? 3)%nat then scanstring (Hex (S seen) u) hi s'
              else
                match hi with
                | Some h =>
                    if is_low_surrogate u
                    then emit (utf8 (join_surrogates h u)) (scanstring Plain None s')
                    else if is_high_surrogate u
                    then emit (utf8 h) (scanstring Plain (Some u) s')
                    else emit (utf8 h ++ utf8 u) (scanstring Plain None s')
                | None =>
                    if is_high_surrogate u
                    then scanstring Plain (Some u) s'
                    else emit (utf8 u) (scanstring Plain None s')
                end
          end
      end
  end.

(** The longest prefix of digits, and what follows. *)
Fixpoint span_digits (s : string) : string * string :=
  match s with
  | String c s' =>
      if is_digit c
      then let '(d, r) := span_digits s' in (String c d, r)
      else (EmptyString, s)
  | EmptyString => (EmptyString, EmptyString)
  end.

Fixpoint digits_value (acc : Z) (s : string) : Z :=
  match s with
  | String c s' => digits_value (10 * acc + Z.of_nat (PyStr.code c - 48)) s'
  | EmptyString => acc
  end.

(** The integer part [0|[1-9][0-9]*]. *)
Definition scan_intpart (s : string) : option (string * string) :=
  match s with
  | String c s' =>
      if Ascii.eqb c "0" then Some ("0", s')
      else if is_digit c then Some (span_digits s)
      else None
  | EmptyString => None
  end.

(** The optional fraction [\.[0-9]+]. *)
Definition scan_frac (s : string) : string * string :=
  match s with
  | String "."%char s' =>
      match span_digits s' with
      | (EmptyString, _) => (EmptyString, s)
      | (d, r) => (String "." d, r)
      end
  | _ => (EmptyString, s)
  end.

(** The optional exponent [[eE][-+]?[0-9]+]. *)
Definition scan_exp (s : string) : string * string :=
  match s with
  | String e s' =>
      if Ascii.eqb e "e" || Ascii.eqb e "E" then
        let '(sign, s'') :=
          match s' with
          | String g t =>
              if Ascii.eqb g "-" || Ascii.eqb g "+"
              then (String g EmptyString, t) else (EmptyString, s')
          | EmptyString => (EmptyString, s')
          end in
        match span_digits s'' with
        | (EmptyString, _) => (EmptyString, s)
        | (d, r) => ((String e sign ++ d)%string, r)
        end
      else (EmptyString, s)
  | EmptyString => (EmptyString, s)
  end.

(** A number: an [int] when there is neither fraction nor exponent. *)
Definition scan_number (s : string) : option (json * string) :=
  let '(neg, s1) :=
    match s with
    | String "-"%char t => (true, t)
    | _ => (false, s)
    end in
  match scan_intpart s1 with
  | None => None
  | Some (ip, s2) =>
      let '(fr, s3) := scan_frac s2 in
      let '(ex, s4) := scan_exp s3 in
      match fr, ex with
      | EmptyString, EmptyString =>
          Some (JInt (if neg then - digits_value 0 ip else digits_value 0 ip), s4)
      | _, _ =>
          Some (JFloat ((if neg then "-" else "") ++ ip ++ fr ++ ex)%string, s4)
      end
  end.

(** [s.startswith(lit)], returning what follows. *)
Fixpoint strip_prefix (lit s : string) : option string :=
  match lit, s with
  | EmptyString, _ => Some s
  | String a lit', String b s' =>
      if Ascii.eqb a b then strip_prefix lit' s' else None
  | String _ _, EmptyString => None
  end.

Definition scan_literal (s : string) : option (json * string) :=
  match strip_prefix "null" s with
  | Some r => Some (JNull, r)
  | None =>
  match strip_prefix "true" s with
  | Some r => Some (JBool true, r)
  | None =>
  match strip_prefix "false" s with
  | Some r => Some (JBool false, r)
  | None =>
  match scan_number s with
  | Some vr => Some vr
  | None =>
  match strip_prefix "NaN" s with
  | Some r => Some (JFloat "NaN", r)
  | None =>
  match strip_prefix "Infinity" s with
  | Some r => Some (JFloat "Infinity", r)
  | None =>
  match strip_prefix "-Infinity" s with
  | Some r => Some (JFloat "-Infinity", r)
  | None => None
  end end end end end end end.

(** [scan_once], [JSONArray] and [JSONObject]. [fuel] bounds the number of
    nested calls; [Exhausted] reports that it ran out. *)
Fixpoint scan_once (fuel : nat) (s : string) : parsed json :=
  match fuel with
  | O => Exhausted
  | S fuel' =>
      match s with
      | EmptyString => Malformed
      | String c rest =>
          if Ascii.eqb c dquote then parsed_map JString (scanstring Plain None rest)
          else if Ascii.eqb c "{" then
            match skip_ws rest with
            | String c' r =>
                if Ascii.eqb c' "}" then Parsed (JObject []) r
                else if Ascii.eqb c' dquote then scan_members fuel' r []
                else Malformed
            | EmptyString => Malformed
            end
          else if Ascii.eqb c "[" then
            match skip_ws rest with
            | String "]"%char r => Parsed (JArray []) r
            | r => scan_elements fuel' r []
            end
          else
            match scan_literal s with
            | Some (v, r) => Parsed v r
            | None => Malformed
            end
      end
  end

with scan_elements (fuel : nat) (s : string) (acc : list json) : parsed json :=
  match fuel with
  | O => Exhausted
  | S fuel' =>
      match scan_once fuel' s with
      | Parsed v r =>
          match skip_ws r with
          | String "]"%char r' => Parsed (JArray (acc ++ [v])) r'
          | String ","%char r' => scan_elements fuel' (skip_ws r') (acc ++ [v])
          | _ => Malformed
          end
      | Malformed => Malformed
      | Exhausted => Exhausted
      end
  end

(** [s] starts just after the opening quote of a key. *)
with scan_members (fuel : nat) (s : string) (acc : list (string * json))
  : parsed json :=
  match fuel with
  | O => Exhausted
  | S fuel' =>
      match scanstring Plain None s with
      | Parsed key r =>
          match skip_ws r with
          | String ":"%char r1 =>
              match scan_once fuel' (skip_ws r1) with
              | Parsed v r2 =>
                  match skip_ws r2 with
                  | String "}"%char r3 =>
                      Parsed (JObject (dict_of_pairs (acc ++ [(key, v)]))) r3
                  | String ","%char r3 =>
                      match skip_ws r3 with
                      | String c' r4 =>
                          if Ascii.eqb c' dquote
                          then scan_members fuel' r4 (acc ++ [(key, v)])
                          else Malformed
                      | EmptyString => Malformed
                      end
                  | _ => Malformed
                  end
              | Malformed => Malformed
              | Exhausted => Exhausted
              end
          | _ => Malformed
          end
      | Malformed => Malformed
      | Exhausted => Exhausted
      end
  end.

(** The byte order mark, which [json.loads] refuses. *)
Definition BOM : string :=
  String (ascii_of_nat 239) (String (ascii_of_nat 187)
    (String (ascii_of_nat 191) EmptyString)).

Definition fuel_for (s : string) : nat := 2 * String.length s + 2.

(** [json.loads(s)]: one value, white space around it, nothing else. Text
    that is not JSON raises [JSONDecodeError]. The limits of the interpreter
    (nesting depth, length of an integer) are not modelled: the fuel is
    enough for every text, see [json_loads_contract]. *)
Definition json_loads (s : string) : outcome json :=
  if prefix BOM s then Raise JSONDecodeError
  else
    match scan_once (fuel_for s) (skip_ws s) with
    | Parsed v rest =>
        match skip_ws rest with
        | EmptyString => Ret v
        | _ => Raise JSONDecodeError
        end
    | Malformed => Raise JSONDecodeError
    | Exhausted => Raise (OtherError "RecursionError")
    end.

End Json.

(* ===================================================================== *)
(** * Regular expressions: [re.search] *)
(* ===================================================================== *)

Module Re.

(** The fragment of [re] the program uses: a literal character, a greedy or
    lazy star over a character class, and [$]. *)
Inductive atom : Type :=
| Chr (c : ascii)
| Star (cls : ascii -> bool)
| LazyStar (cls : ascii -> bool)
| Eos.

Definition pattern : Type := list atom.

(** [\s] and [\S] on ASCII; [[\s\S]] is their union. *)
Definition class_s (c : ascii) : bool :=
  let n := PyStr.code c in
  PyStr.between 9 13 n || PyStr.between 28 32 n.
Definition class_S (c : ascii) : bool := negb (class_s c).
Definition class_sS (c : ascii) : bool := class_s c || class_S c.

(** [$] without [re.MULTILINE]: the end of the string, or just before a
    newline that ends it. *)
Definition at_end (s : string) : bool :=
  match s with
  | EmptyString => true
  | String c EmptyString => Ascii.eqb c PyStr.LF
  | _ => false
  end.

(** A match of [p] that starts at the head of [s]: the text matched. The
    alternatives are tried in the order of a backtracking matcher; a greedy
    star takes one more character before it tries the rest of the
    pattern, a lazy star does the opposite. *)
Fixpoint match_here (p : pattern) : string -> option string :=
  match p with
  | [] => fun _ => Some EmptyString
  | Chr c :: p' => fun s =>
      match s with
      | String x s' =>
          if Ascii.eqb x c then option_map (String x) (match_here p' s') else None
      | EmptyString => None
      end
  | Eos :: p' => fun s => if at_end s then match_here p' s else None
  | Star cls :: p' =>
      fix star (s : string) : option string :=
        match s with
        | String x s' =>
            if cls x then
              match star s' with
              | Some m => Some (String x m)
              | None => match_here p' s
              end
            else match_here p' s
        | EmptyString => match_here p' EmptyString
        end
  | LazyStar cls :: p' =>
      fix lazy (s : string) : option string :=
        match match_here p' s with
        | Some m => Some m
        | None =>
            match s with
            | String x s' => if cls x then option_map (String x) (lazy s') else None
            | EmptyString => None
            end
        end
  end.

(** [re.search(p, s)]: the match at the leftmost position that has one;
    the result is [match.group(0)]. *)
Fixpoint search (p : pattern) (s : string) : option string :=
  match match_here p s with
  | Some m => Some m
  | None =>
      match s with
      | String _ s' => search p s'
      | EmptyString => None
      end
  end.

(** The text ends with a closing brace, or with one and a final newline. *)
Definition closes (s : string) : Prop :=
  exists body,
    s = (body ++ "}")%string
    \/ s = (body ++ "}" ++ String PyStr.LF EmptyString)%string.

(** [a or b] on match objects. *)
Definition or_else {A} (a b : option A) : option A :=
  match a with Some _ => a | None => b end.

End Re.

(* ===================================================================== *)
(** * The generation backend *)
(* ===================================================================== *)

Module Genai.

(** [genai.types.GenerationConfig(temperature=...)] *)
Record GenerationConfig : Type := { cfg_temperature : Q }.

(** [genai.GenerativeModel(model_name)] *)
Record GenerativeModel : Type := { gm_model_name : string }.

(** One call of [model.generate_content(prompt, generation_config=cfg)]. *)
Record GenerationRequest : Type := {
  req_model : GenerativeModel;
  req_prompt : string;
  req_config : GenerationConfig
}.

(** A part of a candidate; [part_text] is [getattr(part, "text", None)]. *)
Record Part : Type := { part_text : option string }.

(** A candidate; [content_parts] is [cand.content.parts], which may raise. *)
Record Candidate : Type := { content_parts : outcome (list Part) }.

(** A response: the aggregated [response.text] (an accessor that may raise,
    or give [None]) and [response.candidates]. *)
Record Response : Type := {
  text : outcome (option string);
  candidates : outcome (list Candidate)
}.

(** The requests sent so far, oldest first. *)
Definition trace : Type := list GenerationRequest.

(** The service: its answer may depend on what it was sent before. *)
Definition backend : Type := trace -> GenerationRequest -> outcome Response.

End Genai.

(** Computations that call the backend: they read and extend the trace. *)
Definition M (A : Type) : Type := Genai.trace -> outcome A * Genai.trace.

Definition ret {A} (a : A) : M A := fun tr => (Ret a, tr).

Definition bind {A B} (m : M A) (k : A -> M B) : M B :=
  fun tr =>
    match m tr with
    | (Ret a, tr') => k a tr'
    | (Raise e, tr') => (Raise e, tr')
    end.

Definition lift {A} (o : outcome A) : M A := fun tr => (o, tr).

Notation "x <- m ;; k" := (bind m (fun x => k))
  (at level 61, m at next level, right associativity).

(* ===================================================================== *)
(** * [LLMClient] *)
(* ===================================================================== *)

Definition SUPPORTED_MODELS : list string :=
  ["models/gemini-2.0-flash"; "models/gemini-pro"].

(** The defaults of [LLMClient.__init__]. *)
Definition default_model_name : string := "models/gemini-2.0-flash".
Definition default_temperature : Q := 2 # 10.

(** An argument with a default value. *)
Definition get_default {A} (arg : option A) (default : A) : A :=
  match arg with Some a => a | None => default end.

Module LLMClient.

Import Genai.

Record t : Type := {
  model_name : string;
  temperature : Q;
  model : GenerativeModel
}.

(** [LLMClient(api_key, model_name, temperature)]. [genai.configure] and
    [genai.GenerativeModel] only record their argument. *)
Definition __init__ (api_key : string) (model_name : option string)
           (temperature : option Q) : outcome t :=
  let model_name := get_default model_name default_model_name in
  let temperature := get_default temperature default_temperature in
  if negb (PyStr.nonempty api_key) then Raise (ValueError "Missing Gemini API key")
  else
    let model_name :=
      if negb (existsb (String.eqb model_name) SUPPORTED_MODELS)
      then nth 0 SUPPORTED_MODELS EmptyString
      else model_name in
    Ret {| model_name := model_name;
           temperature := temperature;
           model := {| gm_model_name := model_name |} |}.

(** [response.text or ""] *)
Definition or_empty (t : option string) : string :=
  match t with
  | Some s => s
  | None => EmptyString
  end.

(** The parts that have a text, over all candidates, in order. *)
Definition truthy_texts (ps : list Part) : list string :=
  flat_map (fun p =>
              match part_text p with
              | Some s => if PyStr.nonempty s then [s] else []
              | None => []
              end) ps.

Definition fragments (response : Response) : outcome (list string) :=
  Outcome.bind (candidates response) (fun cands =>
  Outcome.map (fun pss => flat_map truthy_texts pss)
    (Outcome.sequence (List.map content_parts cands))).

Definition _first_text (response : Response) : outcome string :=
  Outcome.try_except
    (Outcome.map (fun t => PyStr.strip (or_empty t)) (text response))
    Outcome.is_Exception
    (Outcome.try_except
       (Outcome.map (fun ts => PyStr.strip (PyStr.join (String PyStr.LF EmptyString) ts))
          (fragments response))
       Outcome.is_Exception
       (Ret EmptyString)).

(** A string that is empty once stripped. *)
Definition blank (s : string) : Prop := PyStr.strip s = EmptyString.

(** The aggregated text field gives no text: the accessor raises, or gives
    [None], or gives white space only. *)
Definition text_field_empty (response : Response) : Prop :=
  match text response with
  | Raise _ => True
  | Ret t => blank (or_empty t)
  end.

Definition part_empty (p : Part) : Prop :=
  match part_text p with
  | None => True
  | Some s => blank s
  end.

Definition candidate_empty (c : Candidate) : Prop :=
  match content_parts c with
  | Raise _ => True
  | Ret ps => Forall part_empty ps
  end.

(** The candidates give no text: the accessor raises, or every candidate
    raises or holds parts with no text. *)
Definition fragments_empty (response : Response) : Prop :=
  match candidates response with
  | Raise _ => True
  | Ret cands => Forall candidate_empty cands
  end.

Section Client.

Variable service : backend.
Variable loads : string -> outcome Json.json.

(** The configuration [generate_text] builds. *)
Definition generation_config (self : t) (temperature : option Q)
  : GenerationConfig :=
  {| cfg_temperature :=
       match temperature with
       | None => self.(LLMClient.temperature)
       | Some temperature => temperature
       end |}.

Definition generate_content (self : t) (prompt : string)
           (cfg : GenerationConfig) : M Response :=
  fun tr =>
    let req := {| req_model := self.(model); req_prompt := prompt;
                  req_config := cfg |} in
    (service tr req, tr ++ [req]).

Definition generate_text (self : t) (prompt : string)
           (temperature : option Q) : M string :=
  let cfg := generation_config self temperature in
  resp <- generate_content self prompt cfg ;;
  lift (_first_text resp).

(** [r"\{[\s\S]*\}$"] and [r"\{[\s\S]*\}"] *)
Definition span_to_end : Re.pattern :=
  [Re.Chr "{"; Re.Star Re.class_sS; Re.Chr "}"; Re.Eos].
Definition span_anywhere : Re.pattern :=
  [Re.Chr "{"; Re.Star Re.class_sS; Re.Chr "}"].

(** [r"\{[\s\S]*?\}"], the minimal span the design speaks of; the
    program has no such pattern. *)
Definition span_minimal : Re.pattern :=
  [Re.Chr "{"; Re.LazyStar Re.class_sS; Re.Chr "}"].

(** The body of [generate_json] after [raw] was obtained. *)
Definition extract (raw : string) : outcome Json.json :=
  Outcome.try_except (loads raw) Outcome.is_JSONDecodeError
    (match Re.or_else (Re.search span_to_end raw) (Re.search span_anywhere raw) with
     | Some group0 =>
         Outcome.try_except (loads group0) Outcome.is_JSONDecodeError
           (Ret Json.empty_mapping)
     | None => Ret Json.empty_mapping
     end).

Definition generate_json (self : t) (prompt : string)
           (temperature : option Q) : M Json.json :=
  raw <- generate_text self prompt temperature ;;
  lift (extract raw).

(** The request [generate_text] sends. *)
Definition request_of (self : t) (prompt : string) (temperature : option Q)
  : GenerationRequest :=
  {| req_model := self.(model); req_prompt := prompt;
     req_config := generation_config self temperature |}.

(** One parse of a span that was found; the empty mapping when it fails. *)
Definition parse_or_empty (span : string) : outcome Json.json :=
  Outcome.try_except (loads span) Outcome.is_JSONDecodeError
    (Ret Json.empty_mapping).

End Client.

(** ** Sample data *)

(** The client [main] builds: default model, default temperature. *)
Definition sample_client : t :=
  {| model_name := default_model_name;
     temperature := default_temperature;
     model := {| gm_model_name := default_model_name |} |}.

(** A backend that always answers with the empty text. *)
Definition silent_service : backend :=
  fun _ _ => Ret {| text := Ret (Some EmptyString); candidates := Ret [] |}.

(** A response whose text accessor raises and whose parts carry no text. *)
Definition hollow_response : Response :=
  {| text := Raise (ValueError "no valid part");
     candidates :=
       Ret [ {| content_parts := Ret [ {| part_text := None |};
                                       {| part_text := Some EmptyString |} ] |};
             {| content_parts := Ret [] |} ] |}.

Definition dq : string := String Json.dquote EmptyString.

(** Two JSON objects in one text, and the first of them. *)
Definition first_object : string := ("{" ++ dq ++ "a" ++ dq ++ ":1}")%string.
Definition two_objects : string :=
  (first_object ++ " and {" ++ dq ++ "b" ++ dq ++ ":2}")%string.

End LLMClient.

(* ===================================================================== *)
(** * [JobAnalyzer] and the completeness check of [main] *)
(* ===================================================================== *)

Module JobAnalyzer.

Import Json.

Section Analyzer.

Variable service : Genai.backend.
Variable loads : string -> outcome json.
(** [json.dumps(value, indent=2)] *)
Variable dumps : json -> string.

Record t : Type := { llm : LLMClient.t }.

Definition analyze_job_prompt (job_description : string) : string :=
  ("
        Analyze this job description and provide a detailed JSON with:
        1. Key technical skills required
        2. Soft skills required
        3. Years of experience required
        4. Education requirements
        5. Key responsibilities
        6. Company culture indicators
        7. Required certifications
        8. Industry type
        9. Job level (entry, mid, senior)
        10. Key technologies mentioned
        Respond ONLY with a valid JSON object.
        Job Description:
" ++ job_description ++ "
        ")%string.

Definition analyze_job (self : t) (job_description : string) : M json :=
  LLMClient.generate_json service loads self.(llm)
    (analyze_job_prompt job_description) (Some (1 # 10)).

Definition analyze_resume_prompt (resume_text : string) : string :=
  ("
        Analyze this resume and provide a detailed JSON with:
        1. Technical skills
        2. Soft skills
        3. Years of experience
        4. Education details
        5. Key achievements
        6. Core competencies
        7. Industry experience
        8. Leadership experience
        9. Technologies used
        10. Projects completed
        Respond ONLY with a valid JSON object.
        Resume:
" ++ resume_text ++ "
        ")%string.

Definition analyze_resume (self : t) (resume_text : string) : M json :=
  LLMClient.generate_json service loads self.(llm)
    (analyze_resume_prompt resume_text) (Some (1 # 10)).

(** The worked example of a match report that the prompt carries. *)
Definition structure : json :=
  JObject
    [("overall_match_percentage", JString "85%");
     ("matching_skills",
      JArray [JObject [("skill_name", JString "Python"); ("is_match", JBool true)]]);
     ("missing_skills",
      JArray [JObject [("skill_name", JString "Docker"); ("is_match", JBool false);
                       ("suggestion", JString "Consider obtaining Docker certification")]]);
     ("skills_gap_analysis",
      JObject [("technical_skills", JString ""); ("soft_skills", JString "")]);
     ("experience_match_analysis", JString "");
     ("education_match_analysis", JString "");
     ("recommendations_for_improvement",
      JArray [JObject [("recommendation", JString "Add metrics");
                       ("section", JString "Experience");
                       ("guidance", JString "Quantify achievements with numbers")]]);
     ("ats_optimization_suggestions",
      JArray [JObject [("section", JString "Skills");
                       ("current_content", JString "Current format");
                       ("suggested_change", JString "Specific change needed");
                       ("keywords_to_add", JArray [JString "keyword1"; JString "keyword2"]);
                       ("formatting_suggestion", JString "Specific format change");
                       ("reason", JString "Detailed reason")]]);
     ("key_strengths", JString "");
     ("areas_of_improvement", JString "")].

Definition NL : string := String PyStr.LF EmptyString.

Definition analyze_match_prompt (job_analysis resume_analysis : json) : string :=
  ("You are a professional resume analyzer. Compare the provided job requirements and resume to "
   ++ "generate a detailed analysis in valid JSON. Respond ONLY with JSON matching this structure, "
   ++ "filling it with specific, actionable content based on the inputs." ++ NL ++ NL
   ++ "Job Requirements:" ++ NL ++ dumps job_analysis ++ NL ++ NL
   ++ "Resume Details:" ++ NL ++ dumps resume_analysis ++ NL ++ NL
   ++ "JSON schema example (use same keys, replace values):" ++ NL ++ dumps structure)%string.

Definition analyze_match (self : t) (job_analysis resume_analysis : json) : M json :=
  LLMClient.generate_json service loads self.(llm)
    (analyze_match_prompt job_analysis resume_analysis) (Some (2 # 10)).

(** What [main] does once the job text and the resume text are there: the
    three stages, then the check on their results. *)
Inductive analysis : Type :=
| InsufficientData
| AnalysisCompleted (job_analysis resume_analysis match_analysis : json).

Definition run_analysis (job_analyzer : t) (job_desc resume_text : string)
  : M analysis :=
  job_analysis <- analyze_job job_analyzer job_desc ;;
  resume_analysis <- analyze_resume job_analyzer resume_text ;;
  match_analysis <- analyze_match job_analyzer job_analysis resume_analysis ;;
  if negb (truthy job_analysis && truthy resume_analysis && truthy match_analysis)
  then ret InsufficientData
  else ret (AnalysisCompleted job_analysis resume_analysis match_analysis).

End Analyzer.

(** A serializer for running the stages on a silent backend, where only
    empty mappings reach it. *)
Definition dumps_empty (v : json) : string := "{}".

End JobAnalyzer.

(* ===================================================================== *)
(** * The resume writers *)
(* ===================================================================== *)

Module Resume.

(** One entry of [ats_optimization_suggestions]; [None] is an absent key. *)
Record Suggestion : Type := {
  section : option string;
  current_content : option string;
  suggested_change : option string;
  keywords_to_add : option (list string);
  formatting_suggestion : option string;
  reason : option string
}.

(** The match report as the writers read it. *)
Record MatchReport : Type := {
  ats_optimization_suggestions : option (list Suggestion)
}.

Inductive style : Type :=
| header_style
| section_header_style
| normal_style
| bullet_style
| recommendation_style
| Heading1
| Heading2
| Normal
| RecommendationStyle.

(** What is handed to [doc.build]. *)
Inductive flowable : Type :=
| Paragraph (text : string) (st : style)
| Spacer (width height : nat).

(** The bullet the source writes in front of an item, byte for byte. *)
Definition bullet_mark : string := "Ã¢â‚¬Â¢ ".

Definition truthy_list {A} (l : list A) : bool :=
  match l with [] => false | _ => true end.

(** [resume_parts] of [generate_updated_resume] *)
Definition resume_parts (resume_text : string) : list string :=
  map PyStr.strip
    (filter (fun line => PyStr.nonempty (PyStr.strip line))
       (PyStr.splitlines resume_text)).

Definition common_sections : list string :=
  ["EXPERIENCE"; "EDUCATION"; "SKILLS"; "PROJECTS"; "CERTIFICATIONS";
   "SUMMARY"; "OBJECTIVE"].

Definition is_section (line : string) : bool :=
  PyStr.isupper line
  || existsb (fun section => PyStr.contains section (PyStr.upper line))
       common_sections.

(** The two lists the loop updates: [content] and [bullets]. *)
Definition writer_state : Type := (list flowable * list string)%type.

Definition flush_bullets (st : writer_state) : writer_state :=
  let '(content, bullets) := st in
  (fold_left
     (fun content bullet =>
        content ++ [Paragraph (bullet_mark ++ bullet) bullet_style])
     bullets content,
   []).

Definition line_step (st : writer_state) (line : string) : writer_state :=
  if is_section line then
    let '(content, bullets) := flush_bullets st in
    (content ++ [Spacer 1 12] ++ [Paragraph line section_header_style], bullets)
  else
    let '(content, bullets) := st in
    (content, bullets ++ [line]).

Definition append_if (cond : bool) (content : list flowable) (f : flowable)
  : list flowable :=
  if cond then content ++ [f] else content.

Definition suggestion_step (content : list flowable) (s : Suggestion)
  : list flowable :=
  let section := get_default s.(section) "" in
  let current := get_default s.(current_content) "" in
  let suggested := get_default s.(suggested_change) "" in
  let keywords := PyStr.join ", " (get_default s.(keywords_to_add) []) in
  let formatting := get_default s.(formatting_suggestion) "" in
  let reason := get_default s.(reason) "" in
  let content :=
    content ++ [Paragraph (bullet_mark ++ "Section: " ++ section) recommendation_style] in
  let content := append_if (PyStr.nonempty current) content
                   (Paragraph ("  Current: " ++ current) recommendation_style) in
  let content := append_if (PyStr.nonempty suggested) content
                   (Paragraph ("  Suggestion: " ++ suggested) recommendation_style) in
  let content := append_if (PyStr.nonempty keywords) content
                   (Paragraph ("  Keywords to Add: " ++ keywords) recommendation_style) in
  let content := append_if (PyStr.nonempty formatting) content
                   (Paragraph ("  Formatting: " ++ formatting) recommendation_style) in
  let content := append_if (PyStr.nonempty reason) content
                   (Paragraph ("  Reason: " ++ reason) recommendation_style) in
  content ++ [Spacer 1 6].

(** [(match_analysis or {}).get("ats_optimization_suggestions", [])] *)
Definition suggestions_of (match_analysis : option MatchReport) : list Suggestion :=
  match match_analysis with
  | Some report => get_default report.(ats_optimization_suggestions) []
  | None => []
  end.

Definition generate_updated_resume (resume_text : string)
           (match_analysis : option MatchReport) : list flowable :=
  let content := [] in
  let content := content ++ [Paragraph "Updated Resume" header_style] in
  let content := content ++ [Spacer 1 12] in
  let resume_parts := resume_parts resume_text in
  let bullets := [] in
  let st := fold_left line_step resume_parts (content, bullets) in
  let '(content, _) := flush_bullets st in
  let suggestions := suggestions_of match_analysis in
  if truthy_list suggestions then
    let content := content ++ [Spacer 1 20] in
    let content :=
      content ++ [Paragraph "ATS Optimization Recommendations" section_header_style] in
    let content := content ++ [Spacer 1 10] in
    fold_left suggestion_step suggestions content
  else content.

(** ** The second writer *)

Definition resume_parts1 (resume_text : string) : list string :=
  filter (fun p => PyStr.nonempty (PyStr.strip p)) (PyStr.split_nl resume_text).

Definition common_sections1 : list string :=
  ["EXPERIENCE"; "EDUCATION"; "SKILLS"; "PROJECTS"; "CERTIFICATIONS"].

Definition is_section1 (part : string) : bool :=
  PyStr.isupper part
  || existsb (fun section => PyStr.contains section (PyStr.upper part))
       common_sections1.

Definition part_step1 (content : list flowable) (part : string) : list flowable :=
  let content :=
    content ++ [Paragraph part (if is_section1 part then Heading2 else Normal)] in
  content ++ [Spacer 1 6].

Definition truthy_opt (o : option string) : bool :=
  match o with Some s => PyStr.nonempty s | None => false end.

Definition suggestion_step1 (content : list flowable) (suggestion : Suggestion)
  : list flowable :=
  let content :=
    content ++ [Paragraph (bullet_mark ++ "Section: " ++ get_default suggestion.(section) "")
                  RecommendationStyle] in
  let content := append_if (truthy_opt suggestion.(current_content)) content
                   (Paragraph ("  Current: " ++ get_default suggestion.(current_content) "")
                      RecommendationStyle) in
  let content := append_if (truthy_opt suggestion.(suggested_change)) content
                   (Paragraph ("  Suggestion: " ++ get_default suggestion.(suggested_change) "")
                      RecommendationStyle) in
  let content := append_if (truthy_list (get_default suggestion.(keywords_to_add) [])) content
                   (Paragraph ("  Keywords to Add: "
                               ++ PyStr.join ", " (get_default suggestion.(keywords_to_add) []))
                      RecommendationStyle) in
  let content := append_if (truthy_opt suggestion.(formatting_suggestion)) content
                   (Paragraph ("  Formatting: " ++ get_default suggestion.(formatting_suggestion) "")
                      RecommendationStyle) in
  content ++ [Spacer 1 6].

Definition generate_updated_resume1 (resume_text : string)
           (match_analysis : option MatchReport) : list flowable :=
  let content := [] in
  let content := content ++ [Paragraph "Updated Resume" Heading1] in
  let content := content ++ [Spacer 1 12] in
  let content := fold_left part_step1 (resume_parts1 resume_text) content in
  let suggestions := suggestions_of match_analysis in
  if truthy_list suggestions then
    let content := content ++ [Spacer 1 12] in
    let content :=
      content ++ [Paragraph "ATS Optimization Recommendations" Heading2] in
    let content := content ++ [Spacer 1 8] in
    fold_left suggestion_step1 suggestions content
  else content.

(** ** The document tree of the design

    The grouping that the design describes: a section is a header line (or
    none, for the lines before the first header) with the content lines
    that follow it. *)
Record DocumentNode : Type := {
  header : option string;
  content_lines : list string
}.

(** Adding a line at the front of a grouped document. *)
Definition add_line (line : string) (nodes : list DocumentNode)
  : list DocumentNode :=
  if is_section line then
    match nodes with
    | {| header := None; content_lines := ls |} :: rest =>
        {| header := Some line; content_lines := ls |} :: rest
    | _ => {| header := Some line; content_lines := [] |} :: nodes
    end
  else
    match nodes with
    | {| header := None; content_lines := ls |} :: rest =>
        {| header := None; content_lines := line :: ls |} :: rest
    | _ => {| header := None; content_lines := [line] |} :: nodes
    end.

Definition group_lines (lines : list string) : list DocumentNode :=
  fold_right add_line [] lines.

Definition render_node (n : DocumentNode) : list flowable :=
  match n.(header) with
  | Some h => [Spacer 1 12; Paragraph h section_header_style]
  | None => []
  end
  ++ map (fun l => Paragraph (bullet_mark ++ l) bullet_style) n.(content_lines).

(** The lines of a node, header first. *)
Definition node_lines (n : DocumentNode) : list string :=
  match n.(header) with
  | Some h => [h]
  | None => []
  end
  ++ n.(content_lines).

(** A node is well formed when its header is a header line and its content
    lines are not. *)
Definition node_ok (n : DocumentNode) : Prop :=
  match n.(header) with
  | Some h => is_section h = true
  | None => True
  end
  /\ Forall (fun l => is_section l = false) n.(content_lines).

(** ** The recommendations block, entry by entry *)

Definition optional_line (label value : string) : list flowable :=
  if PyStr.nonempty value
  then [Paragraph (label ++ value) recommendation_style]
  else [].

(** One entry: the section line, the lines of the other fields that are not
    empty, and the spacer that closes the entry. *)
Definition entry (s : Suggestion) : list flowable :=
  [Paragraph (bullet_mark ++ "Section: " ++ get_default s.(section) "")
     recommendation_style]
  ++ optional_line "  Current: " (get_default s.(current_content) "")
  ++ optional_line "  Suggestion: " (get_default s.(suggested_change) "")
  ++ optional_line "  Keywords to Add: "
       (PyStr.join ", " (get_default s.(keywords_to_add) []))
  ++ optional_line "  Formatting: " (get_default s.(formatting_suggestion) "")
  ++ optional_line "  Reason: " (get_default s.(reason) "")
  ++ [Spacer 1 6].

Definition recommendations_heading : list flowable :=
  [Spacer 1 20;
   Paragraph "ATS Optimization Recommendations" section_header_style;
   Spacer 1 10].

Definition recommendations (suggestions : list Suggestion) : list flowable :=
  match suggestions with
  | [] => []
  | _ => recommendations_heading ++ flat_map entry suggestions
  end.

(** The resume of the design's example. *)
Definition example_resume : string :=
  "SUMMARY
Built systems.
EXPERIENCE
Led a team.
Managed budgets.".

(** A suggestion with no field at all. *)
Definition empty_suggestion : Suggestion :=
  {| section := None; current_content := None; suggested_change := None;
     keywords_to_add := None; formatting_suggestion := None; reason := None |}.

End Resume.

(* ===================================================================== *)
(** * More of the Python built-ins *)
(* ===================================================================== *)

From Stdlib Require Import DecimalString DecimalNat.

Module Builtins.

Definition isupper_letter (c : ascii) : bool := PyStr.between 65 90 (PyStr.code c).

Definition lower_char (c : ascii) : ascii :=
  if isupper_letter c then ascii_of_nat (PyStr.code c + 32) else c.

(** [s.lower()] *)
Fixpoint lower (s : string) : string :=
  match s with
  | EmptyString => EmptyString
  | String c s' => String (lower_char c) (lower s')
  end.

(** [s.endswith(suffix)] *)
Fixpoint endswith (suffix s : string) : bool :=
  (s =? suffix)%string ||
  match s with
  | EmptyString => false
  | String _ s' => endswith suffix s'
  end.

(** [s.replace(old, new)] for a one-character [old]. *)
Fixpoint replace_char (old : ascii) (new : string) (s : string) : string :=
  match s with
  | EmptyString => EmptyString
  | String c s' =>
      if Ascii.eqb c old then (new ++ replace_char old new s')%string
      else String c (replace_char old new s')
  end.

(** The white space [int] skips around an ASCII literal: blank, TAB, LF, VT,
    FF, CR. *)
Definition int_space (c : ascii) : bool :=
  PyStr.between 9 13 (PyStr.code c) || (PyStr.code c =? 32)%nat.

Fixpoint skip_int_space (s : string) : string :=
  match s with
  | String c s' => if int_space c then skip_int_space s' else s
  | EmptyString => EmptyString
  end.

(** The run of digits of a literal, with single underscores between digits:
    its value, its number of digits and what follows; [None] when an
    underscore is doubled or ends the run. *)
Fixpoint scan_run (after_underscore : bool) (count : nat) (acc : Z) (s : string)
  : option (Z * nat * string) :=
  match s with
  | String c s' =>
      if Json.is_digit c
      then scan_run false (S count) (10 * acc + Z.of_nat (PyStr.code c - 48)) s'
      else if Ascii.eqb c "_"
      then (if after_underscore then None else scan_run true count acc s')
      else (if after_underscore then None else Some (acc, count, s))
  | EmptyString => if after_underscore then None else Some (acc, count, EmptyString)
  end.

(** [sys.get_int_max_str_digits()] *)
Definition int_max_str_digits : nat := 4300.

Definition invalid_literal : exn := ValueError "invalid literal for int() with base 10".
Definition exceeds_limit : exn :=
  ValueError "Exceeds the limit (4300 digits) for integer string conversion".

(** [int(s)] for a string, base 10. *)
Definition int_of_str (s : string) : outcome Z :=
  let s := skip_int_space s in
  let '(negative, s) :=
    match s with
    | String c s' =>
        if Ascii.eqb c "-" then (true, s')
        else if Ascii.eqb c "+" then (false, s')
        else (false, s)
    | EmptyString => (false, s)
    end in
  match s with
  | String c _ =>
      if Ascii.eqb c "_" then Raise invalid_literal
      else
        match scan_run false 0 0%Z s with
        | None => Raise invalid_literal
        | Some (value, count, rest) =>
            if (int_max_str_digits <? count)%nat then Raise exceeds_limit
            else if (count =? 0)%nat then Raise invalid_literal
            else
              match skip_int_space rest with
              | EmptyString => Ret (if negative then (- value)%Z else value)
              | _ => Raise invalid_literal
              end
        end
  | EmptyString => Raise invalid_literal
  end.

(** The decimal digits of a natural number, as [str] writes them. *)
Definition str_of_nat (n : nat) : string :=
  NilEmpty.string_of_uint (Nat.to_uint n).

Definition AttributeError : exn := OtherError "AttributeError".

(** [d.get(key, default)]; a value that is not a dict has no [get]. *)
Fixpoint assoc (key : string) (m : list (string * Json.json)) : option Json.json :=
  match m with
  | [] => None
  | (k, v) :: m' => if (k =? key)%string then Some v else assoc key m'
  end.

Definition dict_get (d : Json.json) (key : string) (default : Json.json)
  : outcome Json.json :=
  match d with
  | Json.JObject m => Ret (get_default (assoc key m) default)
  | _ => Raise AttributeError
  end.

(** [v.replace(old, new)]; only a string has [replace]. *)
Definition value_replace (v : Json.json) (old : ascii) (new : string)
  : outcome string :=
  match v with
  | Json.JString s => Ret (replace_char old new s)
  | _ => Raise AttributeError
  end.

End Builtins.

(* ===================================================================== *)
(** * Reading the resume file *)
(* ===================================================================== *)

Module Files.

(** A page of a PDF; [extract_text] is [page.extract_text()], which may
    raise or give [None]. *)
Record Page : Type := { extract_text : outcome (option string) }.

(** What was uploaded: its name, what [PyPDF2.PdfReader(file).pages] gives
    and what the [text] of [docx.Document(file).paragraphs] gives; opening
    the file in the wrong format raises. *)
Record UploadedFile : Type := {
  name : string;
  pdf_pages : outcome (list Page);
  docx_paragraphs : outcome (list string)
}.

(** What the page shows: [st.info], [st.warning], [st.error], [st.success]. *)
Inductive ui : Type :=
| st_info (msg : string)
| st_warning (msg : string)
| st_error (msg : string)
| st_success (msg : string).

Definition page_step (text : string) (page : Page) : string :=
  match page.(extract_text) with
  | Ret t => (text ++ LLMClient.or_empty t)%string
  | Raise _ => text
  end.

Definition read_pdf (file : UploadedFile) : outcome string :=
  Outcome.bind file.(pdf_pages) (fun pages =>
  Ret (fold_left page_step pages EmptyString)).

Definition read_docx (file : UploadedFile) : outcome string :=
  Outcome.bind file.(docx_paragraphs) (fun paragraphs =>
  Ret (PyStr.join (String PyStr.LF EmptyString) paragraphs)).

Definition unsupported_format : string :=
  "Unsupported file format please upload a PDF or DOCX".

(** [load_resume]: the text, or [None] after an error on the page. *)
Definition load_resume (uploaded_file : UploadedFile)
  : outcome (option string) * list ui :=
  if Builtins.endswith ".pdf" (Builtins.lower uploaded_file.(name))
  then (Outcome.map Some (read_pdf uploaded_file), [])
  else if Builtins.endswith ".docx" (Builtins.lower uploaded_file.(name))
  then (Outcome.map Some (read_docx uploaded_file), [])
  else (Ret None, [st_error unsupported_format]).

(** The text a page contributes: nothing when it raises or has none. *)
Definition page_text (page : Page) : string :=
  match page.(extract_text) with
  | Ret (Some t) => t
  | _ => EmptyString
  end.

Definition readable (page : Page) : bool :=
  match page.(extract_text) with
  | Ret (Some _) => true
  | _ => false
  end.

Fixpoint concat_all (parts : list string) : string :=
  match parts with
  | [] => EmptyString
  | p :: parts' => (p ++ concat_all parts')%string
  end.

(** Sample files. *)
Definition scanned_pdf : UploadedFile :=
  {| name := "Scan.PDF";
     pdf_pages := Ret [ {| extract_text := Raise (OtherError "PdfReadError") |};
                        {| extract_text := Ret None |} ];
     docx_paragraphs := Raise (OtherError "BadZipFile") |}.

Definition text_file : UploadedFile :=
  {| name := "resume.txt";
     pdf_pages := Raise (OtherError "PdfReadError");
     docx_paragraphs := Raise (OtherError "BadZipFile") |}.

End Files.

(* ===================================================================== *)
(** * [CoverLetterGenerator] *)
(* ===================================================================== *)

Module CoverLetterGenerator.

Section Generator.

Variable service : Genai.backend.
Variable dumps : Json.json -> string.

Record t : Type := { llm : LLMClient.t }.

Definition cover_letter_prompt (job_analysis resume_analysis match_analysis : Json.json)
           (tone : string) : string :=
  ("
        Generate a compelling cover letter using this information:
        Job Details:
"
   ++ dumps job_analysis
   ++ "
        Candidate Details:
"
   ++ dumps resume_analysis
   ++ "
        Match Analysis:
"
   ++ dumps match_analysis
   ++ "
        Tone: "
   ++ tone
   ++ "
        Requirements:
        1. Make it personal and specific
        2. Highlight the strongest matches
        3. Address potential gaps professionally
        4. Keep it concise but impactful (200-300 words)
        5. Use the specified tone: "
   ++ tone
   ++ "
        6. Include specific examples from the resume
        7. Make it ATS-friendly
        8. End with a confident call to action
        ")%string.

Definition generate_cover_letter (self : t)
           (job_analysis resume_analysis match_analysis : Json.json)
           (tone : option string) : M string :=
  let tone := get_default tone "professional" in
  LLMClient.generate_text service self.(llm)
    (cover_letter_prompt job_analysis resume_analysis match_analysis tone)
    (Some (7 # 10)).

End Generator.

End CoverLetterGenerator.

(* ===================================================================== *)
(** * The page: key, inputs, analysis and match quality *)
(* ===================================================================== *)

Module App.

Import Files.

(** [os.environ] and [st.secrets] (reading the secrets raises when there is
    no secrets file). *)
Definition environ : Type := string -> option string.

Definition GEMINI_API_KEY : string := "GEMINI_API_KEY".

Definition resolve_api_key_from_inputs (secrets : outcome environ) (env : environ)
           (user_input_key : option string) : option string :=
  if PyStr.nonempty (LLMClient.or_empty user_input_key)
  then Some (PyStr.strip (LLMClient.or_empty user_input_key))
  else
    match
      Outcome.try_except
        (Outcome.bind secrets (fun s => Ret (s GEMINI_API_KEY)))
        Outcome.is_Exception (Ret None)
    with
    | Ret (Some v) => Some v
    | _ => env GEMINI_API_KEY
    end.

(** [not api_key]: [main] shows the welcome page and stops. *)
Definition welcome_page (api_key : option string) : bool :=
  negb (PyStr.nonempty (LLMClient.or_empty api_key)).

Definition provide_both : string :=
  "ğŸ‘† Please provide both a job description and upload your resume to start the analysis.".
Definition paste_job : string :=
  "ğŸ“‹ Please paste the job description to continue.".
Definition upload_resume : string :=
  "ğŸ“„ Please upload your resume to continue.".
Definition could_not_read : string :=
  "âŒ Could not read your resume. Please try uploading a different file.".
Definition insufficient_data : string :=
  "âŒ Insufficient data returned from the AI model. Please try again or adjust the model settings.".
Definition analysis_completed : string :=
  "âœ… Analysis completed successfully!".

(** Where [main] gets to: it returns before the results, or goes on to show
    them. *)
Inductive page : Type :=
| Returned
| Results (job_analysis resume_analysis match_analysis : Json.json).

Section Page.

Variable service : Genai.backend.
Variable loads : string -> outcome Json.json.
Variable dumps : Json.json -> string.

(** [main] from the check of the two inputs to the check of the three
    results: the outcome, what the page shows, and the requests sent. *)
Definition main_analysis (job_analyzer : JobAnalyzer.t) (job_desc : string)
           (resume_file : option UploadedFile) (tr : Genai.trace)
  : outcome page * list ui * Genai.trace :=
  match PyStr.nonempty job_desc, resume_file with
  | false, None => (Ret Returned, [st_info provide_both], tr)
  | false, Some _ => (Ret Returned, [st_warning paste_job], tr)
  | true, None => (Ret Returned, [st_warning upload_resume], tr)
  | true, Some file =>
      match load_resume file with
      | (Raise e, shown) => (Raise e, shown, tr)
      | (Ret resume_text, shown) =>
          if negb (PyStr.nonempty (LLMClient.or_empty resume_text))
          then (Ret Returned, shown ++ [st_error could_not_read], tr)
          else
            match JobAnalyzer.run_analysis service loads dumps job_analyzer
                    job_desc (LLMClient.or_empty resume_text) tr with
            | (Raise e, tr') => (Raise e, shown, tr')
            | (Ret JobAnalyzer.InsufficientData, tr') =>
                (Ret Returned, shown ++ [st_error insufficient_data], tr')
            | (Ret (JobAnalyzer.AnalysisCompleted j r m), tr') =>
                (Ret (Results j r m), shown ++ [st_success analysis_completed], tr')
            end
      end
  end.

End Page.

(** [st.metric(label, value, delta=...)] *)
Record metric : Type := {
  label : string;
  value : string;
  delta : option string
}.

Definition excellent : metric :=
  {| label := "ğŸ† Match Quality"; value := "Excellent"; delta := Some "High compatibility" |}.
Definition good : metric :=
  {| label := "ğŸ‘ Match Quality"; value := "Good"; delta := Some "Strong potential" |}.
Definition needs_work : metric :=
  {| label := "ğŸ’ª Match Quality"; value := "Needs Work"; delta := Some "Room for improvement" |}.
Definition calculating : metric :=
  {| label := "ğŸ¯ Match Quality"; value := "Calculating..."; delta := None |}.

(** A bare [except:] catches whatever is raised. *)
Definition anything (e : exn) : bool := true.

(** The fourth metric of the results: the quality of the match. *)
Definition match_quality (match_analysis : Json.json) : outcome metric :=
  Outcome.bind
    (Builtins.dict_get match_analysis "overall_match_percentage" (Json.JString "0%"))
    (fun match_percent =>
       Outcome.try_except
         (Outcome.bind (Builtins.value_replace match_percent "%" "") (fun digits =>
          Outcome.bind (Builtins.int_of_str digits) (fun match_num =>
          Ret (if (80 <=? match_num)%Z then excellent
               else if (60 <=? match_num)%Z then good
               else needs_work))))
         anything
         (Ret calculating)).

(** A report that gives the percentage [n]. *)
Definition report_with_percentage (n : nat) : Json.json :=
  Json.JObject
    [("overall_match_percentage"%string,
      Json.JString (Builtins.str_of_nat n ++ "%"))].

End App.

(* ===================================================================== *)
(** * More sample data *)
(* ===================================================================== *)

Module Samples.

Import Genai.

(** A backend that is down. *)
Definition failing_service : backend :=
  fun _ _ => Raise (OtherError "ServiceUnavailable").

(** The second writer's entry for a suggestion, and its lines. *)
Definition one_keyword_suggestion : Resume.Suggestion :=
  {| Resume.section := Some "Skills"%string;
     Resume.current_content := None;
     Resume.suggested_change := None;
     Resume.keywords_to_add := Some ["Python"%string];
     Resume.formatting_suggestion := None;
     Resume.reason := Some "ATS"%string |}.

(** A backend that always answers with a JSON array. *)
Definition array_service : backend :=
  fun _ _ => Ret {| text := Ret (Some "[1]"%string); candidates := Ret [] |}.

(** The text of the design's example of commentary around a payload. *)
Definition wrapped_object : string :=
  ("Here is the result: " ++ LLMClient.first_object ++ " Thanks!")%string.

End Samples.

(* ===================================================================== *)
(** * The second writer, entry by entry *)
(* ===================================================================== *)

Module Resume1.

Import Resume.

(** A line of the resume with the spacer that follows it. *)
Definition part_flow (part : string) : list flowable :=
  [Paragraph part (if is_section1 part then Heading2 else Normal); Spacer 1 6].

Definition optional_line1 (shown : bool) (label value : string) : list flowable :=
  if shown then [Paragraph (label ++ value) RecommendationStyle] else [].

(** One entry of the second writer: the section line, the lines of the
    fields that are there, the spacer; there is no line for the reason. *)
Definition entry1 (s : Suggestion) : list flowable :=
  [Paragraph (bullet_mark ++ "Section: " ++ get_default s.(section) "")
     RecommendationStyle]
  ++ optional_line1 (truthy_opt s.(current_content)) "  Current: "
       (get_default s.(current_content) "")
  ++ optional_line1 (truthy_opt s.(suggested_change)) "  Suggestion: "
       (get_default s.(suggested_change) "")
  ++ optional_line1 (truthy_list (get_default s.(keywords_to_add) []))
       "  Keywords to Add: " (PyStr.join ", " (get_default s.(keywords_to_add) []))
  ++ optional_line1 (truthy_opt s.(formatting_suggestion)) "  Formatting: "
       (get_default s.(formatting_suggestion) "")
  ++ [Spacer 1 6].

Definition recommendations1 (suggestions : list Suggestion) : list flowable :=
  match suggestions with
  | [] => []
  | _ =>
      [Spacer 1 12;
       Paragraph "ATS Optimization Recommendations" Heading2;
       Spacer 1 8]
      ++ flat_map entry1 suggestions
  end.

(** A text whose only line boundaries are newlines. *)
Definition only_newlines (s : string) : bool :=
  negb (PyStr.existsb_char
          (fun c => PyStr.is_linebreak c && negb (Ascii.eqb c PyStr.LF)) s).

(** The paragraphs written in the style of the recommendations. *)
Definition is_recommendation_line (f : flowable) : bool :=
  match f with
  | Paragraph _ RecommendationStyle => true
  | _ => false
  end.

End Resume1.
(* ===================================================================== *)
(** * Facts about strings *)
(* ===================================================================== *)

Section StringFacts.

Import PyStr.

Lemma append_nil_r (s : string) : (s ++ "")%string = s.
Proof. induction s as [|c s IH]; simpl; [reflexivity | now rewrite IH]. Qed.

Lemma append_assoc (a b c : string) :
  ((a ++ b) ++ c)%string = (a ++ (b ++ c))%string.
Proof. induction a as [|x a IH]; simpl; [reflexivity | now rewrite IH]. Qed.

Lemma prefix_spec (p s : string) :
  prefix p s = true <-> exists post, s = (p ++ post)%string.
Proof.
  revert s. induction p as [|c p IH]; intros s.
  - split; [intros _; now exists s | intros _; now destruct s].
  - destruct s as [|d s]; simpl.
    + split; [discriminate | intros [post H]; discriminate].
    + destruct (ascii_dec c d) as [->|Hne].
      * rewrite IH. split; intros [post H]; exists post.
        -- now rewrite H.
        -- now inversion H.
      * split; [discriminate | intros [post H]; inversion H; congruence].
Qed.

Lemma contains_unfold (needle hay : string) :
  contains needle hay =
  prefix needle hay ||
  match hay with
  | EmptyString => false
  | String _ hay' => contains needle hay'
  end.
Proof. destruct hay; reflexivity. Qed.

(** [needle in hay] holds exactly when [needle] is a substring of [hay]. *)
Lemma contains_spec (needle hay : string) :
  contains needle hay = true <-> substring_of needle hay.
Proof.
  induction hay as [|c hay IH]; rewrite contains_unfold.
  - rewrite orb_false_r, prefix_spec. split.
    + intros [post H]. now exists ""%string, post.
    + intros [[|x pre] [post H]]; [now exists post | discriminate].
  - rewrite orb_true_iff, IH, prefix_spec. split.
    + intros [[post H] | [pre [post H]]].
      * now exists ""%string, post.
      * exists (String c pre), post. simpl. now rewrite H.
    + intros [[|x pre] [post H]].
      * left. now exists post.
      * right. simpl in H. inversion H. now exists pre, post.
Qed.

Lemma lstrip_left_trimmed (s : string) : left_trimmed (lstrip s).
Proof.
  induction s as [|c s IH]; simpl; [exact I|].
  destruct (isspace c) eqn:E; [exact IH | exact E].
Qed.

Lemma lstrip_fixed (s : string) : left_trimmed s -> lstrip s = s.
Proof. destruct s as [|c s]; simpl; [reflexivity | now intros ->]. Qed.

Lemma rstrip_left_trimmed (s : string) : left_trimmed s -> left_trimmed (rstrip s).
Proof.
  destruct s as [|c s]; simpl; [trivial|]. intros H.
  destruct (rstrip s); [rewrite H|]; exact H.
Qed.

Lemma rstrip_idem (s : string) : rstrip (rstrip s) = rstrip s.
Proof.
  induction s as [|c s IH]; simpl; [reflexivity|].
  destruct (rstrip s) as [|d r] eqn:E.
  - destruct (isspace c) eqn:Ec; simpl; [reflexivity | now rewrite Ec].
  - simpl. simpl in IH. rewrite IH. reflexivity.
Qed.

Lemma strip_idem (s : string) : strip (strip s) = strip s.
Proof.
  unfold strip.
  rewrite lstrip_fixed by apply rstrip_left_trimmed, lstrip_left_trimmed.
  apply rstrip_idem.
Qed.

Lemma nonempty_true (s : string) : nonempty s = true <-> s <> ""%string.
Proof. destruct s; simpl; split; congruence. Qed.

Lemma rstrip_nil_left_trimmed (s : string) :
  left_trimmed s -> rstrip s = ""%string -> s = ""%string.
Proof.
  destruct s as [|c s]; simpl; [reflexivity|]. intros H.
  destruct (rstrip s); [rewrite H|]; discriminate.
Qed.

Lemma lstrip_nil (s : string) : lstrip s = ""%string <-> all_space s = true.
Proof.
  induction s as [|c s IH]; simpl; [tauto|].
  destruct (isspace c); simpl; [exact IH | split; discriminate].
Qed.

(** A string strips to nothing exactly when it is white space only. *)
Lemma strip_nil (s : string) : strip s = ""%string <-> all_space s = true.
Proof.
  unfold strip. rewrite <- lstrip_nil. split.
  - apply rstrip_nil_left_trimmed, lstrip_left_trimmed.
  - now intros ->.
Qed.

Lemma all_space_app (a b : string) :
  all_space (a ++ b) = all_space a && all_space b.
Proof.
  induction a as [|c a IH]; simpl; [reflexivity|].
  now rewrite IH, andb_assoc.
Qed.

Lemma all_space_join (sep : string) (parts : list string) :
  all_space sep = true ->
  Forall (fun s => all_space s = true) parts ->
  all_space (join sep parts) = true.
Proof.
  intros Hsep H. unfold join. induction H as [|s l Hs Hl IH]; [reflexivity|].
  simpl. destruct l as [|s' l'].
  - exact Hs.
  - rewrite !all_space_app, Hs, Hsep. exact IH.
Qed.

End StringFacts.

(* ===================================================================== *)
(** * The scanner always answers *)
(* ===================================================================== *)

Section ScannerFacts.

Import Json.
Local Open Scope nat_scope.

Lemma skip_ws_length (s : string) : String.length (skip_ws s) <= String.length s.
Proof.
  induction s as [|c s IH]; simpl; [lia|]. destruct (is_ws c); simpl; lia.
Qed.

Lemma consumes_map {A B} (f : A -> B) (s : string) (p : parsed A) :
  consumes s p -> consumes s (parsed_map f p).
Proof. destruct p; simpl; auto. Qed.

Lemma consumes_longer {A} (s s' : string) (p : parsed A) :
  String.length s <= String.length s' -> consumes s p -> consumes s' p.
Proof. destruct p; simpl; auto; lia. Qed.

Lemma scanstring_consumes (s : string) :
  forall st hi, consumes s (scanstring st hi s).
Proof.
  induction s as [|c s IH]; intros st hi; simpl; [exact I|].
  assert (Hrec : forall st' hi', consumes (String c s) (scanstring st' hi' s)).
  { intros st' hi'. apply consumes_longer with (s := s); [simpl; lia | apply IH]. }
  assert (Hemit : forall out st' hi',
             consumes (String c s) (emit out (scanstring st' hi' s))).
  { intros out st' hi'. apply consumes_map, Hrec. }
  destruct st as [| | seen acc].
  - destruct (Ascii.eqb c dquote); [simpl; lia|].
    destruct (Ascii.eqb c "\"); [apply Hrec|].
    destruct (PyStr.code c <? 32)%nat; [exact I | apply Hemit].
  - destruct (Ascii.eqb c "u"); [apply Hrec|].
    destruct (backslash c); [apply Hemit | exact I].
  - destruct (hexval c) as [d|]; [|exact I]. cbv zeta.
    destruct (seen <? 3)%nat; [apply Hrec|].
    destruct hi as [h|].
    + destruct (is_low_surrogate _); [apply Hemit|].
      destruct (is_high_surrogate _); apply Hemit.
    + destruct (is_high_surrogate _); [apply Hrec | apply Hemit].
Qed.

Lemma span_digits_length (s : string) :
  String.length (snd (span_digits s)) <= String.length s.
Proof.
  induction s as [|c s IH]; simpl; [lia|].
  destruct (is_digit c); [|simpl; lia].
  destruct (span_digits s) as [d r]. simpl in *. lia.
Qed.

Lemma scan_intpart_shorter (s ip r : string) :
  scan_intpart s = Some (ip, r) -> String.length r < String.length s.
Proof.
  destruct s as [|c s]; simpl; [discriminate|].
  destruct (Ascii.eqb c "0"); [intros H; inversion H; simpl; lia|].
  destruct (is_digit c); [|discriminate].
  pose proof (span_digits_length s) as Hl.
  destruct (span_digits s) as [d r']. intros H. inversion H; subst. simpl in Hl. lia.
Qed.

Lemma scan_frac_length (s : string) :
  String.length (snd (scan_frac s)) <= String.length s.
Proof.
  unfold scan_frac. destruct s as [|c s]; [simpl; lia|].
  destruct (Ascii.eqb_spec c ".") as [->|Hne].
  - pose proof (span_digits_length s) as Hl.
    destruct (span_digits s) as [[|d0 d] r]; simpl in *; lia.
  - assert (E : forall X (a b : X),
               match c with "."%char => a | _ => b end = b).
    { intros X a b.
      destruct c as [[] [] [] [] [] [] [] []]; try reflexivity. contradiction. }
    rewrite E. simpl. lia.
Qed.

Lemma scan_exp_length (s : string) :
  String.length (snd (scan_exp s)) <= String.length s.
Proof.
  unfold scan_exp. destruct s as [|e s]; [simpl; lia|].
  destruct (Ascii.eqb e "e" || Ascii.eqb e "E"); [|simpl; lia].
  set (split := match s with
                | String g t =>
                    if Ascii.eqb g "-" || Ascii.eqb g "+"
                    then (String g EmptyString, t) else (EmptyString, s)
                | EmptyString => (EmptyString, s)
                end).
  assert (Hs : String.length (snd split) <= String.length s).
  { subst split. destruct s as [|g t]; [simpl; lia|].
    destruct (Ascii.eqb g "-" || Ascii.eqb g "+"); simpl; lia. }
  destruct split as [sign s'']. simpl in Hs.
  pose proof (span_digits_length s'') as Hl.
  destruct (span_digits s'') as [[|d0 d] r]; simpl in *; lia.
Qed.

Lemma scan_number_shorter (s r : string) (v : json) :
  scan_number s = Some (v, r) -> String.length r < String.length s.
Proof.
  unfold scan_number.
  set (split := match s with
                | String "-"%char t => (true, t)
                | _ => (false, s)
                end).
  assert (Hs : String.length (snd split) <= String.length s).
  { subst split. destruct s as [|c t]; [simpl; lia|].
    destruct c as [[] [] [] [] [] [] [] []]; simpl; lia. }
  destruct split as [neg s1]. simpl in Hs.
  destruct (scan_intpart s1) as [[ip s2]|] eqn:Ei; [|discriminate].
  apply scan_intpart_shorter in Ei.
  pose proof (scan_frac_length s2) as Hf. destruct (scan_frac s2) as [fr s3].
  pose proof (scan_exp_length s3) as He. destruct (scan_exp s3) as [ex s4].
  simpl in Hf, He.
  destruct fr, ex; intros H; inversion H; subst; lia.
Qed.

Lemma strip_prefix_length (lit s r : string) :
  strip_prefix lit s = Some r ->
  String.length s = String.length lit + String.length r.
Proof.
  revert s. induction lit as [|a lit IH]; intros s; simpl.
  - intros H. inversion H. reflexivity.
  - destruct s as [|b s]; [discriminate|].
    destruct (Ascii.eqb a b); [|discriminate].
    intros H. apply IH in H. simpl. lia.
Qed.

Lemma scan_literal_shorter (s r : string) (v : json) :
  scan_literal s = Some (v, r) -> String.length r < String.length s.
Proof.
  unfold scan_literal.
  repeat match goal with
         | |- context [strip_prefix ?lit s] =>
             let E := fresh "E" in
             destruct (strip_prefix lit s) eqn:E;
             [apply strip_prefix_length in E; simpl in E;
              intros H; inversion H; subst; lia|]
         | |- context [scan_number s] =>
             let E := fresh "E" in
             destruct (scan_number s) as [[v' r']|] eqn:E;
             [apply scan_number_shorter in E; intros H; inversion H; subst; lia|]
         end.
  discriminate.
Qed.

(** With fuel above twice the length of the text, the three scanners never
    run out, and what they leave is shorter than what they were given. *)
Lemma scan_enough_fuel (fuel : nat) :
  (forall s, 2 * String.length s < fuel -> consumes s (scan_once fuel s))
  /\ (forall s acc, 2 * String.length s + 1 < fuel ->
                    consumes s (scan_elements fuel s acc))
  /\ (forall s acc, 2 * String.length s + 1 < fuel ->
                    consumes s (scan_members fuel s acc)).
Proof.
  induction fuel as [|fuel [IHo [IHe IHm]]].
  - repeat split; intros; lia.
  - repeat split.
    + intros s Hf. simpl. destruct s as [|c rest]; [exact I|].
      simpl in Hf.
      destruct (Ascii.eqb c dquote).
      { apply consumes_map.
        apply consumes_longer with (s := rest); [simpl; lia|].
        apply scanstring_consumes. }
      pose proof (skip_ws_length rest) as Hw.
      destruct (Ascii.eqb c "{").
      { destruct (skip_ws rest) as [|c' r] eqn:Er; [exact I|]. simpl in Hw.
        destruct (Ascii.eqb c' "}"); [simpl; lia|].
        destruct (Ascii.eqb c' dquote); [|exact I].
        apply consumes_longer with (s := r); [simpl; lia|].
        apply IHm. lia. }
      destruct (Ascii.eqb c "[").
      { assert (Hel : consumes (String c rest) (scan_elements fuel (skip_ws rest) [])).
        { apply consumes_longer with (s := skip_ws rest); [simpl; lia|].
          apply IHe. lia. }
        destruct (skip_ws rest) as [|c' r] eqn:Er; [exact Hel|].
        destruct c' as [[] [] [] [] [] [] [] []]; try exact Hel.
        simpl in *. lia. }
      destruct (scan_literal (String c rest)) as [[v r]|] eqn:El; [|exact I].
      apply scan_literal_shorter in El. exact El.
    + intros s acc Hf. simpl.
      assert (Ho : consumes s (scan_once fuel s)) by (apply IHo; lia).
      destruct (scan_once fuel s) as [v r| |]; [|exact I | exact Ho].
      simpl in Ho. pose proof (skip_ws_length r) as Hw.
      destruct (skip_ws r) as [|c' r'] eqn:Er; [exact I|]. simpl in Hw.
      assert (Hrec : consumes s (scan_elements fuel (skip_ws r') (acc ++ [v]))).
      { pose proof (skip_ws_length r') as Hw'.
        apply consumes_longer with (s := skip_ws r'); [lia|].
        apply IHe. lia. }
      destruct c' as [[] [] [] [] [] [] [] []]; try exact I; try exact Hrec.
      simpl. lia.
    + intros s acc Hf. simpl.
      pose proof (scanstring_consumes s Plain None) as Hk.
      destruct (scanstring Plain None s) as [key r| |]; [|exact I | exact Hk].
      simpl in Hk. pose proof (skip_ws_length r) as Hw.
      destruct (skip_ws r) as [|c1 r1] eqn:Er; [exact I|]. simpl in Hw.
      pose proof (skip_ws_length r1) as Hw1.
      assert (Ho : consumes (skip_ws r1) (scan_once fuel (skip_ws r1)))
        by (apply IHo; lia).
      assert (Hbody :
                consumes s
                  match scan_once fuel (skip_ws r1) with
                  | Parsed v r2 =>
                      match skip_ws r2 with
                      | String "}"%char r3 =>
                          Parsed (JObject (dict_of_pairs (acc ++ [(key, v)]))) r3
                      | String ","%char r3 =>
                          match skip_ws r3 with
                          | String c' r4 =>
                              if Ascii.eqb c' dquote
                              then scan_members fuel r4 (acc ++ [(key, v)])
                              else Malformed
                          | EmptyString => Malformed
                          end
                      | _ => Malformed
                      end
                  | Malformed => Malformed
                  | Exhausted => Exhausted
                  end).
      { destruct (scan_once fuel (skip_ws r1)) as [v r2| |]; [|exact I | exact Ho].
        simpl in Ho. pose proof (skip_ws_length r2) as Hw2.
        destruct (skip_ws r2) as [|c2 r3] eqn:Er2; [exact I|]. simpl in Hw2.
        assert (Hrec : consumes s
                         match skip_ws r3 with
                         | String c' r4 =>
                             if Ascii.eqb c' dquote
                             then scan_members fuel r4 (acc ++ [(key, v)])
                             else Malformed
                         | EmptyString => Malformed
                         end).
        { pose proof (skip_ws_length r3) as Hw3.
          destruct (skip_ws r3) as [|c' r4] eqn:Er3; [exact I|]. simpl in Hw3.
          destruct (Ascii.eqb c' dquote); [|exact I].
          apply consumes_longer with (s := r4); [lia|]. apply IHm. lia. }
        destruct c2 as [[] [] [] [] [] [] [] []]; try exact I; try exact Hrec.
        simpl. lia. }
      destruct c1 as [[] [] [] [] [] [] [] []]; try exact I. exact Hbody.
Qed.

(** [json_loads] answers with a value or with a decode error. *)
Lemma json_loads_contract (s : string) :
  (exists v, json_loads s = Ret v) \/ json_loads s = Raise JSONDecodeError.
Proof.
  unfold json_loads. destruct (prefix BOM s); [now right|].
  pose proof (skip_ws_length s) as Hw.
  assert (H : consumes (skip_ws s) (scan_once (fuel_for s) (skip_ws s))).
  { apply scan_enough_fuel. unfold fuel_for. lia. }
  destruct (scan_once (fuel_for s) (skip_ws s)) as [v r| |].
  - destruct (skip_ws r); [left; now exists v | now right].
  - now right.
  - destruct H.
Qed.

End ScannerFacts.

(* ===================================================================== *)
(** * The resume writers *)
(* ===================================================================== *)

Section WriterFacts.

Import PyStr Resume.

Lemma fold_left_append {A B} (f : A -> B) (l : list A) (acc : list B) :
  fold_left (fun acc a => acc ++ [f a]) l acc = acc ++ map f l.
Proof.
  revert acc. induction l as [|a l IH]; intros acc; simpl.
  - now rewrite app_nil_r.
  - now rewrite IH, <- app_assoc.
Qed.

Lemma flush_bullets_eq (content : list flowable) (bullets : list string) :
  flush_bullets (content, bullets) =
  (content ++ map (fun l => Paragraph (bullet_mark ++ l) bullet_style) bullets, []).
Proof.
  unfold flush_bullets.
  now rewrite (fold_left_append (fun l => Paragraph (bullet_mark ++ l) bullet_style)).
Qed.

(** What one more line in front adds to the rendering of the nodes. *)
Lemma render_add_line (line : string) (nodes : list DocumentNode) :
  flat_map render_node (add_line line nodes) =
  (if is_section line
   then [Spacer 1 12; Paragraph line section_header_style]
   else [Paragraph (bullet_mark ++ line) bullet_style])
  ++ flat_map render_node nodes.
Proof.
  unfold add_line.
  destruct (is_section line); destruct nodes as [|[[h|] ls] rest]; reflexivity.
Qed.

(** The loop of the writer, from any state: what it has appended once the
    last bullets are flushed. *)
Lemma writer_loop (parts : list string) :
  forall content bullets,
    fst (flush_bullets (fold_left line_step parts (content, bullets))) =
    content
    ++ map (fun l => Paragraph (bullet_mark ++ l) bullet_style) bullets
    ++ flat_map render_node (group_lines parts).
Proof.
  induction parts as [|line parts IH]; intros content bullets.
  - simpl fold_left. rewrite flush_bullets_eq. simpl. now rewrite app_nil_r.
  - simpl fold_left. unfold group_lines. simpl fold_right.
    fold (group_lines parts). rewrite render_add_line.
    unfold line_step at 2. destruct (is_section line).
    + rewrite flush_bullets_eq, IH. simpl. now rewrite <- !app_assoc.
    + rewrite IH, map_app. simpl. now rewrite <- !app_assoc.
Qed.

Lemma suggestion_step_entry (content : list flowable) (s : Suggestion) :
  suggestion_step content s = content ++ entry s.
Proof.
  unfold suggestion_step, entry, append_if, optional_line.
  repeat match goal with |- context [PyStr.nonempty ?v] => destruct (PyStr.nonempty v) end;
    simpl; rewrite <- ?app_assoc; reflexivity.
Qed.

Lemma suggestions_loop (l : list Suggestion) (content : list flowable) :
  fold_left suggestion_step l content = content ++ flat_map entry l.
Proof.
  revert content. induction l as [|s l IH]; intros content; simpl.
  - now rewrite app_nil_r.
  - now rewrite IH, suggestion_step_entry, <- app_assoc.
Qed.

(** The writer, as the document tree followed by the recommendations. *)
Lemma generate_updated_resume_tree (resume_text : string)
      (match_analysis : option MatchReport) :
  generate_updated_resume resume_text match_analysis =
  [Paragraph "Updated Resume" header_style; Spacer 1 12]
  ++ flat_map render_node (group_lines (resume_parts resume_text))
  ++ recommendations (suggestions_of match_analysis).
Proof.
  unfold generate_updated_resume.
  pose proof (writer_loop (resume_parts resume_text)
                ([] ++ [Paragraph "Updated Resume" header_style] ++ [Spacer 1 12]) [])
    as H.
  destruct (flush_bullets _) as [content bullets]. simpl in H. subst content.
  destruct (suggestions_of match_analysis) as [|s l]; simpl truthy_list; cbv iota.
  - simpl. now rewrite app_nil_r.
  - rewrite suggestions_loop. unfold recommendations, recommendations_heading.
    simpl. rewrite <- !app_assoc. reflexivity.
Qed.

Lemma node_lines_add_line (line : string) (nodes : list DocumentNode) :
  flat_map node_lines (add_line line nodes) = line :: flat_map node_lines nodes.
Proof.
  unfold add_line.
  destruct (is_section line); destruct nodes as [|[[h|] ls] rest]; reflexivity.
Qed.

Lemma group_lines_flatten (lines : list string) :
  flat_map node_lines (group_lines lines) = lines.
Proof.
  induction lines as [|line lines IH]; [reflexivity|].
  unfold group_lines. simpl fold_right. fold (group_lines lines).
  now rewrite node_lines_add_line, IH.
Qed.

Lemma add_line_ok (line : string) (nodes : list DocumentNode) :
  Forall node_ok nodes -> Forall node_ok (add_line line nodes).
Proof.
  intros H. unfold add_line.
  destruct (is_section line) eqn:E; destruct nodes as [|[[h|] ls] rest];
    try (inversion H as [|n ns [Hh Hc] Hrest]; subst; simpl in * );
    repeat (constructor; simpl; auto).
Qed.

Lemma group_lines_ok (lines : list string) : Forall node_ok (group_lines lines).
Proof.
  induction lines as [|line lines IH]; [constructor|].
  unfold group_lines. simpl fold_right. now apply add_line_ok.
Qed.

Lemma is_section_spec (line : string) :
  is_section line = true <->
  isupper line = true \/
  exists keyword, In keyword common_sections /\ substring_of keyword (upper line).
Proof.
  unfold is_section. rewrite orb_true_iff, existsb_exists.
  split; (intros [H | [k [Hin Hk]]]; [now left | right; exists k; split; [exact Hin|]]).
  - now apply contains_spec.
  - now apply contains_spec.
Qed.

Lemma resume_parts_trimmed (resume_text : string) :
  Forall (fun line => line <> ""%string /\ strip line = line)
    (resume_parts resume_text).
Proof.
  unfold resume_parts. apply Forall_forall. intros line Hin.
  apply in_map_iff in Hin. destruct Hin as [raw_line [<- Hin]].
  apply filter_In in Hin. destruct Hin as [_ Hne].
  split; [now apply nonempty_true | apply strip_idem].
Qed.

Lemma entry_length (s : Suggestion) :
  length (entry s) =
  S (S (length (filter PyStr.nonempty
                [get_default s.(current_content) "";
                 get_default s.(suggested_change) "";
                 PyStr.join ", " (get_default s.(keywords_to_add) []);
                 get_default s.(formatting_suggestion) "";
                 get_default s.(Resume.reason) ""]))).
Proof.
  unfold entry, optional_line. simpl filter.
  repeat match goal with |- context [PyStr.nonempty ?v] => destruct (PyStr.nonempty v) end;
    reflexivity.
Qed.

Lemma keyword_lists_nested (line : string) :
  is_section1 line = true -> is_section line = true.
Proof.
  unfold is_section1, is_section, common_sections1, common_sections.
  simpl existsb. rewrite !orb_false_r, !orb_true_iff. tauto.
Qed.

Lemma keyword_lists_differ (line : string) :
  is_section line = true -> is_section1 line = false ->
  contains "SUMMARY" (upper line) = true \/ contains "OBJECTIVE" (upper line) = true.
Proof.
  unfold is_section1, is_section, common_sections1, common_sections.
  simpl existsb. rewrite !orb_false_r, !orb_true_iff, !orb_false_iff.
  intros H1 H2.
  repeat match goal with H : _ /\ _ |- _ => destruct H end.
  repeat match goal with H : _ \/ _ |- _ => destruct H end; try congruence; tauto.
Qed.

End WriterFacts.

(* ===================================================================== *)
(** * The two searches of [generate_json] *)
(* ===================================================================== *)

Section RegexFacts.

Import PyStr Re.

Lemma class_sS_any (c : ascii) : class_sS c = true.
Proof. unfold class_sS, class_S. apply orb_negb_r. Qed.

Lemma match_here_chr (c x : ascii) (p : pattern) (s : string) :
  match_here (Chr c :: p) (String x s) =
  if Ascii.eqb x c then option_map (String x) (match_here p s) else None.
Proof. reflexivity. Qed.

Lemma match_here_star (cls : ascii -> bool) (p : pattern) (x : ascii) (s : string) :
  match_here (Star cls :: p) (String x s) =
  if cls x then
    match match_here (Star cls :: p) s with
    | Some m => Some (String x m)
    | None => match_here p (String x s)
    end
  else match_here p (String x s).
Proof. reflexivity. Qed.

Lemma match_here_lazy (cls : ascii -> bool) (p : pattern) (s : string) :
  match_here (LazyStar cls :: p) s =
  match match_here p s with
  | Some m => Some m
  | None =>
      match s with
      | String x s' =>
          if cls x then option_map (String x) (match_here (LazyStar cls :: p) s')
          else None
      | EmptyString => None
      end
  end.
Proof. destruct s; reflexivity. Qed.

(** Whatever a pattern matches at the head of a string is a prefix of it. *)
Lemma match_here_prefix (p : pattern) :
  forall s m, match_here p s = Some m -> exists post, s = (m ++ post)%string.
Proof.
  induction p as [|a p IH]; intros s m H.
  - inversion H. now exists s.
  - destruct a as [c | cls | cls | ].
    + destruct s as [|x s]; [discriminate|]. rewrite match_here_chr in H.
      destruct (Ascii.eqb x c); [|discriminate].
      destruct (match_here p s) as [m'|] eqn:E; [|discriminate].
      inversion H. destruct (IH _ _ E) as [post ->]. now exists post.
    + revert m H. induction s as [|x s IHs]; intros m H.
      * apply IH. exact H.
      * rewrite match_here_star in H. destruct (cls x).
        -- destruct (match_here (Star cls :: p) s) as [m'|] eqn:E.
           ++ inversion H. destruct (IHs _ eq_refl) as [post ->]. now exists post.
           ++ now apply IH.
        -- now apply IH.
    + revert m H. induction s as [|x s IHs]; intros m H;
        rewrite match_here_lazy in H;
        destruct (match_here p _) as [m0|] eqn:E.
      * inversion H; subst. now apply IH.
      * discriminate.
      * inversion H; subst. now apply IH.
      * destruct (cls x); [|discriminate].
        destruct (match_here (LazyStar cls :: p) s) as [m'|] eqn:E'; [|discriminate].
        inversion H. destruct (IHs _ eq_refl) as [post ->]. now exists post.
    + simpl in H. destruct (at_end s); [|discriminate]. now apply IH.
Qed.

Lemma search_cons (p : pattern) (x : ascii) (s : string) :
  search p (String x s) =
  match match_here p (String x s) with
  | Some m => Some m
  | None => search p s
  end.
Proof. reflexivity. Qed.

(** What [re.search] returns is a substring of the text searched. *)
Lemma search_substring (p : pattern) (s m : string) :
  search p s = Some m -> substring_of m s.
Proof.
  induction s as [|x s IH]; simpl.
  - destruct (match_here p "") as [m0|] eqn:E; [|discriminate].
    intros H; inversion H; subst.
    destruct (match_here_prefix _ _ E) as [post ->]. now exists ""%string, post.
  - destruct (match_here p (String x s)) as [m0|] eqn:E.
    + intros H; inversion H; subst.
      destruct (match_here_prefix _ _ E) as [post ->]. now exists ""%string, post.
    + intros H. destruct (IH H) as [pre [post ->]]. now exists (String x pre), post.
Qed.

Lemma has_char_app (c : ascii) (a b : string) :
  has_char c (a ++ b) = has_char c a || has_char c b.
Proof.
  unfold has_char. induction a as [|x a IH]; simpl; [reflexivity|].
  now rewrite IH, orb_assoc.
Qed.

Lemma has_char_cons (c x : ascii) (s : string) :
  has_char c (String x s) = Ascii.eqb c x || has_char c s.
Proof. reflexivity. Qed.

Lemma has_char_witness (c : ascii) (a b : string) :
  has_char c (a ++ String c b) = true.
Proof.
  rewrite has_char_app, has_char_cons, Ascii.eqb_refl. apply orb_true_r.
Qed.

(** ** [[\s\S]*\}]: up to the last closing brace *)

Local Abbreviation tail_anywhere := [Star class_sS; Chr "}"].

Lemma tail_anywhere_none (s : string) :
  match_here tail_anywhere s = None <-> has_char "}" s = false.
Proof.
  induction s as [|x s IH].
  - simpl. tauto.
  - rewrite match_here_star, class_sS_any, has_char_cons, match_here_chr.
    destruct (match_here tail_anywhere s) as [m|].
    + split; [discriminate|]. intros H. apply orb_false_iff in H.
      destruct H as [_ H]. apply IH in H. discriminate.
    + rewrite (proj1 IH eq_refl), orb_false_r, (Ascii.eqb_sym "}" x).
      destruct (Ascii.eqb x "}"); simpl; split; congruence.
Qed.

Lemma tail_anywhere_some (s m : string) :
  match_here tail_anywhere s = Some m <->
  exists body post,
    m = (body ++ "}")%string /\ s = (m ++ post)%string /\ has_char "}" post = false.
Proof.
  split.
  - revert m. induction s as [|x s IH]; intros m H; [discriminate|].
    rewrite match_here_star, class_sS_any, match_here_chr in H.
    destruct (match_here tail_anywhere s) as [m'|] eqn:E.
    + inversion H; subst. destruct (IH _ eq_refl) as [body [post [-> [Hs Hp]]]].
      exists (String x body), post. repeat split; [|exact Hp].
      simpl. now rewrite <- Hs.
    + destruct (Ascii.eqb_spec x "}") as [->|]; [|discriminate].
      inversion H; subst. exists ""%string, s. repeat split.
      now apply tail_anywhere_none.
  - intros [body [post [-> [-> Hp]]]].
    induction body as [|x body IH]; simpl append.
    + rewrite match_here_star, class_sS_any, match_here_chr.
      rewrite (proj2 (tail_anywhere_none post) Hp). reflexivity.
    + rewrite match_here_star, class_sS_any. simpl append in IH. now rewrite IH.
Qed.

(** ** [[\s\S]*\}$]: up to a closing brace that ends the text *)

Local Abbreviation tail_to_end := [Star class_sS; Chr "}"; Eos].

Lemma at_end_spec (s : string) :
  at_end s = true <-> s = ""%string \/ s = String LF "".
Proof.
  destruct s as [|c [|d s]]; simpl.
  - tauto.
  - destruct (Ascii.eqb_spec c LF) as [->|Hne]; split; try tauto; try congruence.
    intros [H|H]; [discriminate | inversion H; contradiction].
  - split; [discriminate | intros [H|H]; discriminate].
Qed.

Lemma brace_to_end (x : ascii) (s : string) :
  match_here [Chr "}"; Eos] (String x s) =
  if Ascii.eqb x "}" && at_end s then Some (String x "") else None.
Proof.
  rewrite match_here_chr. simpl.
  destruct (Ascii.eqb x "}"), (at_end s); reflexivity.
Qed.

Lemma closes_cons (x : ascii) (s : string) :
  closes (String x s) <-> (x = "}"%char /\ at_end s = true) \/ closes s.
Proof.
  split.
  - intros [[|y body] H]; simpl in H.
    + left. rewrite at_end_spec. destruct H as [H|H]; inversion H; auto.
    + right. exists body. destruct H as [H|H]; inversion H; auto.
  - intros [[-> H] | [body H]].
    + exists ""%string. apply at_end_spec in H. destruct H as [->| ->]; simpl; auto.
    + exists (String x body). destruct H as [->| ->]; simpl; auto.
Qed.

Lemma closes_nil : ~ closes "".
Proof. intros [[|y body] [H|H]]; discriminate. Qed.

Lemma tail_to_end_sound (s m : string) :
  match_here tail_to_end s = Some m ->
  exists body,
    m = (body ++ "}")%string /\ (s = m \/ s = (m ++ String LF "")%string).
Proof.
  revert m. induction s as [|x s IH]; intros m H; [discriminate|].
  rewrite match_here_star, class_sS_any, brace_to_end in H.
  destruct (match_here tail_to_end s) as [m'|] eqn:E.
  - inversion H; subst. destruct (IH _ eq_refl) as [body [-> Hs]].
    exists (String x body). split; [reflexivity|].
    destruct Hs as [Hs|Hs]; [left | right]; now rewrite Hs.
  - destruct (Ascii.eqb_spec x "}") as [->|]; [|discriminate].
    destruct (at_end s) eqn:Ea; [|discriminate].
    inversion H; subst. exists ""%string. split; [reflexivity|].
    apply at_end_spec in Ea. destruct Ea as [->| ->]; auto.
Qed.

Lemma tail_to_end_closes (s m : string) :
  match_here tail_to_end s = Some m -> closes s.
Proof.
  intros H. destruct (tail_to_end_sound _ H) as [body [-> [Hs|Hs]]];
    exists body; rewrite Hs; [left | right]; [reflexivity|].
  now rewrite append_assoc.
Qed.

Lemma tail_to_end_none (s : string) :
  match_here tail_to_end s = None <-> ~ closes s.
Proof.
  induction s as [|x s IH].
  - simpl. split; [intros _; apply closes_nil | reflexivity].
  - rewrite match_here_star, class_sS_any, brace_to_end, closes_cons.
    destruct (match_here tail_to_end s) as [m|] eqn:E.
    + split; [discriminate|]. intros H. exfalso. apply H. right.
      exact (tail_to_end_closes _ E).
    + assert (Hn : ~ closes s) by now apply IH.
      destruct (Ascii.eqb_spec x "}") as [->|Hne]; simpl.
      * destruct (at_end s); split; try discriminate; try tauto.
        intros _ [[_ H]|H]; [discriminate | contradiction].
      * split; [|reflexivity]. intros _ [[H _]|H]; contradiction.
Qed.

Lemma tail_to_end_complete (body tail : string) :
  at_end tail = true ->
  match_here tail_to_end (body ++ "}" ++ tail) = Some (body ++ "}")%string.
Proof.
  intros Ht. induction body as [|x body IH]; simpl append.
  - rewrite match_here_star, class_sS_any, brace_to_end. simpl Ascii.eqb.
    assert (E : match_here tail_to_end tail = None).
    { apply at_end_spec in Ht. destruct Ht as [->| ->]; reflexivity. }
    rewrite E. now rewrite Ht.
  - rewrite match_here_star, class_sS_any. simpl append in IH. now rewrite IH.
Qed.

(** ** The two patterns of the program *)

Import LLMClient.

Lemma span_anywhere_here (x : ascii) (s : string) :
  match_here span_anywhere (String x s) =
  if Ascii.eqb x "{" then option_map (String x) (match_here tail_anywhere s) else None.
Proof. reflexivity. Qed.

Lemma span_to_end_here (x : ascii) (s : string) :
  match_here span_to_end (String x s) =
  if Ascii.eqb x "{" then option_map (String x) (match_here tail_to_end s) else None.
Proof. reflexivity. Qed.

(** [re.search(r"\{[\s\S]*\}", raw)] gives the span from the first opening
    brace to the last closing brace, when the latter comes after the
    former. *)
Lemma search_span_anywhere (raw m : string) :
  Re.search span_anywhere raw = Some m <->
  exists pre body post,
    raw = (pre ++ m ++ post)%string
    /\ m = (String "{" body ++ "}")%string
    /\ has_char "{" pre = false
    /\ has_char "}" post = false.
Proof.
  split.
  - revert m. induction raw as [|x raw IH]; intros m H; [discriminate|].
    rewrite search_cons, span_anywhere_here in H.
    destruct (Ascii.eqb_spec x "{") as [->|Hne].
    + destruct (match_here tail_anywhere raw) as [m'|] eqn:E; simpl in H.
      * inversion H; subst.
        apply tail_anywhere_some in E. destruct E as [body [post [-> [-> Hp]]]].
        exists ""%string, body, post. repeat split. exact Hp.
      * apply tail_anywhere_none in E.
        destruct (IH _ H) as [pre [body [post [-> [-> _]]]]].
        replace (pre ++ (String "{" body ++ "}") ++ post)%string
          with ((pre ++ String "{" body) ++ String "}" post)%string in E
          by (rewrite !append_assoc; reflexivity).
        rewrite has_char_witness in E. discriminate.
    + destruct (IH _ H) as [pre [body [post [-> [-> [Hpre Hpost]]]]]].
      exists (String x pre), body, post. repeat split; [|exact Hpost].
      rewrite has_char_cons, Hpre, orb_false_r.
      apply Ascii.eqb_neq. congruence.
  - intros [pre [body [post [-> [-> [Hpre Hpost]]]]]].
    induction pre as [|x pre IH].
    + simpl append. rewrite search_cons, span_anywhere_here. simpl Ascii.eqb.
      cbv iota.
      rewrite append_assoc.
      rewrite (proj2 (tail_anywhere_some (body ++ "}" ++ post) (body ++ "}"))).
      * reflexivity.
      * exists body, post. repeat split; [|exact Hpost]. now rewrite append_assoc.
    + rewrite has_char_cons in Hpre. apply orb_false_iff in Hpre.
      destruct Hpre as [Hx Hpre].
      simpl append. rewrite search_cons, span_anywhere_here.
      rewrite Ascii.eqb_sym, Hx. now apply IH.
Qed.

(** [re.search(r"\{[\s\S]*\}$", raw)] gives the span from the first opening
    brace to a closing brace that ends the text or stands before its final
    newline. *)
Lemma search_span_to_end (raw m : string) :
  Re.search span_to_end raw = Some m <->
  exists pre body tail,
    raw = (pre ++ m ++ tail)%string
    /\ m = (String "{" body ++ "}")%string
    /\ has_char "{" pre = false
    /\ (tail = ""%string \/ tail = String LF "").
Proof.
  split.
  - revert m. induction raw as [|x raw IH]; intros m H; [discriminate|].
    rewrite search_cons, span_to_end_here in H.
    destruct (Ascii.eqb_spec x "{") as [->|Hne].
    + destruct (match_here tail_to_end raw) as [m'|] eqn:E; simpl in H.
      * inversion H; subst.
        destruct (tail_to_end_sound _ E) as [body [-> Hs]].
        exists ""%string, body.
        destruct Hs as [Hs|Hs]; [exists ""%string | exists (String LF "")];
          repeat split; auto; simpl; rewrite Hs at 1;
          [now rewrite append_nil_r | reflexivity].
      * apply tail_to_end_none in E. exfalso. apply E.
        destruct (IH _ H) as [pre [body [tail [-> [-> [_ Ht]]]]]].
        exists (pre ++ String "{" body)%string.
        destruct Ht as [->| ->]; [left | right]; simpl;
          rewrite ?append_nil_r, ?append_assoc; simpl; reflexivity.
    + destruct (IH _ H) as [pre [body [tail [-> [-> [Hpre Ht]]]]]].
      exists (String x pre), body, tail. repeat split; [|exact Ht].
      rewrite has_char_cons, Hpre, orb_false_r.
      apply Ascii.eqb_neq. congruence.
  - intros [pre [body [tail [-> [-> [Hpre Ht]]]]]].
    induction pre as [|x pre IH].
    + simpl append. rewrite search_cons, span_to_end_here. simpl Ascii.eqb.
      cbv iota. rewrite append_assoc.
      rewrite tail_to_end_complete; [reflexivity|]. now apply at_end_spec.
    + rewrite has_char_cons in Hpre. apply orb_false_iff in Hpre.
      destruct Hpre as [Hx Hpre].
      simpl append. rewrite search_cons, span_to_end_here.
      rewrite Ascii.eqb_sym, Hx. now apply IH.
Qed.

End RegexFacts.

(* ===================================================================== *)
(** * The client *)
(* ===================================================================== *)

Section ClientFacts.

Import Genai LLMClient.

Variable service : backend.
Variable loads : string -> outcome Json.json.

Lemma generate_text_run (self : t) (prompt : string) (temperature : option Q)
      (tr : trace) :
  generate_text service self prompt temperature tr =
  (Outcome.bind (service tr (request_of self prompt temperature)) _first_text,
   tr ++ [request_of self prompt temperature]).
Proof.
  unfold generate_text, generate_content, bind, lift, request_of.
  destruct (service tr _); reflexivity.
Qed.

Lemma generate_json_run (self : t) (prompt : string) (temperature : option Q)
      (tr : trace) (resp : Response) (raw : string) :
  service tr (request_of self prompt temperature) = Ret resp ->
  _first_text resp = Ret raw ->
  generate_json service loads self prompt temperature tr =
  (extract loads raw, tr ++ [request_of self prompt temperature]).
Proof.
  intros Hs Hr. unfold generate_json, bind.
  rewrite generate_text_run, Hs. simpl. rewrite Hr. reflexivity.
Qed.

(** [_first_text] never raises. *)
Lemma first_text_total (response : Response) :
  exists s, _first_text response = Ret s.
Proof.
  unfold _first_text, Outcome.try_except, Outcome.map, Outcome.bind.
  destruct (text response); [eexists; reflexivity|]. simpl.
  destruct (fragments response); eexists; reflexivity.
Qed.

Lemma sequence_ret {A} (ms : list (outcome A)) (l : list A) :
  Outcome.sequence ms = Ret l -> Forall2 (fun m a => m = Ret a) ms l.
Proof.
  revert l. induction ms as [|m ms IH]; intros l H; simpl in H.
  - inversion H. constructor.
  - destruct m as [a|e]; [|discriminate]. simpl in H.
    destruct (Outcome.sequence ms) as [l'|e]; [|discriminate].
    inversion H. constructor; [reflexivity | now apply IH].
Qed.

Lemma truthy_texts_blank (ps : list Part) :
  Forall part_empty ps ->
  Forall (fun s => PyStr.all_space s = true) (truthy_texts ps).
Proof.
  intros H. unfold truthy_texts. induction H as [|p ps Hp Hps IH]; [constructor|].
  simpl. unfold part_empty in Hp. destruct (part_text p) as [s|]; [|exact IH].
  destruct (PyStr.nonempty s); [|exact IH].
  constructor; [now apply strip_nil | exact IH].
Qed.

Lemma fragments_blank (response : Response) (ts : list string) :
  fragments_empty response ->
  fragments response = Ret ts ->
  Forall (fun s => PyStr.all_space s = true) ts.
Proof.
  unfold fragments_empty, fragments. intros He H.
  destruct (candidates response) as [cands|e]; [|discriminate]. simpl in H.
  unfold Outcome.map, Outcome.bind in H.
  destruct (Outcome.sequence (map content_parts cands)) as [pss|e] eqn:E; [|discriminate].
  inversion H; subst; clear H. apply sequence_ret in E.
  revert pss E. induction He as [|c cands Hc Hcs IH]; intros pss E.
  - inversion E. constructor.
  - inversion E as [|m ps ms pss' Hm Hrest]; subst. simpl.
    apply Forall_app. split; [|now apply IH].
    unfold candidate_empty in Hc. rewrite Hm in Hc. now apply truthy_texts_blank.
Qed.

(** The extraction gives the empty mapping when the whole text does not
    parse and the span that is tried, if any, does not parse either. *)
Lemma extract_search (raw : string) :
  loads raw = Raise JSONDecodeError ->
  extract loads raw =
  match Re.search span_to_end raw with
  | Some span => parse_or_empty loads span
  | None =>
      match Re.search span_anywhere raw with
      | Some span => parse_or_empty loads span
      | None => Ret Json.empty_mapping
      end
  end.
Proof.
  intros H. unfold extract, Re.or_else, parse_or_empty. rewrite H. simpl.
  destruct (Re.search span_to_end raw); [reflexivity|].
  destruct (Re.search span_anywhere raw); reflexivity.
Qed.

Lemma extract_whole (raw : string) (v : Json.json) :
  loads raw = Ret v -> extract loads raw = Ret v.
Proof. intros H. unfold extract. now rewrite H. Qed.

Lemma parse_or_empty_total (span : string) :
  (forall s e, loads s = Raise e -> e = JSONDecodeError) ->
  exists v, parse_or_empty loads span = Ret v.
Proof.
  intros Hc. unfold parse_or_empty.
  destruct (loads span) as [v|e] eqn:E; [now exists v|].
  rewrite (Hc _ _ E). now exists Json.empty_mapping.
Qed.

(** With a parser that raises nothing but decode errors, the extraction
    always returns a value. *)
Lemma extract_total (raw : string) :
  (forall s e, loads s = Raise e -> e = JSONDecodeError) ->
  exists v, extract loads raw = Ret v.
Proof.
  intros Hc. destruct (loads raw) as [v|e] eqn:E.
  - exists v. now apply extract_whole.
  - rewrite (Hc _ _ E) in E. rewrite (extract_search E).
    destruct (Re.search span_to_end raw); [now apply parse_or_empty_total|].
    destruct (Re.search span_anywhere raw); [now apply parse_or_empty_total|].
    now exists Json.empty_mapping.
Qed.

Lemma span_to_end_closes (raw m : string) :
  Re.search span_to_end raw = Some m -> Re.closes raw.
Proof.
  intros H. apply search_span_to_end in H.
  destruct H as [pre [body [tail [-> [-> [_ Ht]]]]]].
  exists (pre ++ String "{" body)%string.
  destruct Ht as [->| ->]; [left | right]; simpl;
    rewrite ?append_nil_r, ?append_assoc; simpl; reflexivity.
Qed.

End ClientFacts.

(* ===================================================================== *)
(** * The properties of the design *)
(* ===================================================================== *)

Unset Implicit Arguments.

Section Enumeration.

Import PyStr.

Lemma prefixes_in (s post : string) : In s (prefixes (s ++ post)).
Proof.
  induction s as [|c s IH]; simpl.
  - destruct post; simpl; auto.
  - right. apply in_map. exact IH.
Qed.

Lemma suffixes_in (pre s : string) : In s (suffixes (pre ++ s)).
Proof.
  induction pre as [|c pre IH]; simpl.
  - destruct s; simpl; auto.
  - right. exact IH.
Qed.

(** Every substring is in the list of substrings. *)
Lemma substrings_complete (s raw : string) :
  substring_of s raw -> In s (substrings raw).
Proof.
  intros [pre [post ->]]. unfold substrings. apply in_flat_map.
  exists (s ++ post)%string. split; [apply suffixes_in | apply prefixes_in].
Qed.

End Enumeration.

Section Extraction.

Import PyStr Genai LLMClient.

(** C1 (as the program has it). [generate_json] parses the whole text and
    returns the value when that succeeds. When it fails with a decode
    error, the span from the first opening brace to a closing brace that
    ends the text (or stands before its final newline) is parsed, once, and
    its value or else the empty mapping is returned; only a text with no
    such ending has the span from its first opening brace to its last
    closing brace parsed instead, once, with the same two results; a text
    with no opening brace before a closing one gives the empty mapping. No
    shorter span is tried after a span failed to parse. *)
Theorem extraction_order (loads : string -> outcome Json.json) (raw : string) :
  (forall v, loads raw = Ret v -> extract loads raw = Ret v)
  /\ (loads raw = Raise JSONDecodeError ->
      (forall pre body tail,
          raw = (pre ++ (String "{" body ++ "}") ++ tail)%string ->
          has_char "{" pre = false ->
          tail = ""%string \/ tail = String LF "" ->
          extract loads raw = parse_or_empty loads (String "{" body ++ "}"))
      /\ (forall pre body post,
             ~ Re.closes raw ->
             raw = (pre ++ (String "{" body ++ "}") ++ post)%string ->
             has_char "{" pre = false ->
             has_char "}" post = false ->
             extract loads raw = parse_or_empty loads (String "{" body ++ "}"))
      /\ ((forall pre body post,
              raw <> (pre ++ (String "{" body ++ "}") ++ post)%string) ->
          extract loads raw = Ret Json.empty_mapping)).
Proof.
  split; [intros v; apply extract_whole|].
  intros Hraw. rewrite (@extract_search _ _ Hraw). repeat split.
  - intros pre body tail Hdec Hpre Htail.
    rewrite (proj2 (search_span_to_end raw (String "{" body ++ "}"))); [reflexivity|].
    now exists pre, body, tail.
  - intros pre body post Hopen Hdec Hpre Hpost.
    destruct (Re.search span_to_end raw) as [m|] eqn:E.
    + exfalso. apply Hopen. exact (@span_to_end_closes _ _ E).
    + rewrite (proj2 (search_span_anywhere raw (String "{" body ++ "}"))); [reflexivity|].
      now exists pre, body, post.
  - intros Hnone.
    destruct (Re.search span_to_end raw) as [m|] eqn:E.
    + apply search_span_to_end in E.
      destruct E as [pre [body [tail [Hdec [-> _]]]]].
      exfalso. exact (Hnone _ _ _ Hdec).
    + destruct (Re.search span_anywhere raw) as [m|] eqn:E'; [|reflexivity].
      apply search_span_anywhere in E'.
      destruct E' as [pre [body [post [Hdec [-> _]]]]].
      exfalso. exact (Hnone _ _ _ Hdec).
Qed.

(** C1, as stated, fails on two objects joined by a word: the whole text
    does not parse, the span to the end is the whole text again and does
    not parse, the minimal span is the first object and does parse, and
    yet the result is the empty mapping. The same holds when a word
    follows, so that the span to the end finds nothing. *)
Lemma minimal_span_not_tried :
  Json.json_loads two_objects = Raise JSONDecodeError
  /\ Re.search span_to_end two_objects = Some two_objects
  /\ Re.search span_minimal two_objects = Some first_object
  /\ Json.json_loads first_object = Ret (Json.JObject [("a"%string, Json.JInt 1)])
  /\ extract Json.json_loads two_objects = Ret Json.empty_mapping
  /\ Json.json_loads (two_objects ++ " done") = Raise JSONDecodeError
  /\ Re.search span_to_end (two_objects ++ " done") = None
  /\ Re.search span_minimal (two_objects ++ " done") = Some first_object
  /\ extract Json.json_loads (two_objects ++ " done") = Ret Json.empty_mapping.
Proof. repeat split; vm_compute; reflexivity. Qed.



(** C10. A text that parses as a whole is returned as parsed, whatever the
    value is: an array or a number comes back unchanged. The result differs
    from the parse of the whole text only when that parse fails with a
    decode error. *)
Theorem whole_parse_returned_unchanged
        (loads : string -> outcome Json.json) (raw : string) (v : Json.json) :
  loads raw = Ret v ->
  Json.is_object v = false ->
  extract loads raw = Ret v
  /\ (forall (service : backend) self prompt temperature tr resp,
         service tr (request_of self prompt temperature) = Ret resp ->
         _first_text resp = Ret raw ->
         generate_json service loads self prompt temperature tr =
         (Ret v, tr ++ [request_of self prompt temperature]))
  /\ (forall raw', extract loads raw' <> loads raw' ->
                   loads raw' = Raise JSONDecodeError).
Proof.
  intros Hv _. repeat split.
  - now apply extract_whole.
  - intros service self prompt temperature tr resp Hs Hr.
    rewrite (@generate_json_run _ loads _ _ _ _ _ _ Hs Hr), (@extract_whole _ _ _ Hv).
    reflexivity.
  - intros raw' Hne. unfold extract in Hne.
    destruct (loads raw') as [v'|[]]; simpl in Hne; congruence.
Qed.

Lemma whole_parse_returned_unchanged_witness :
  extract Json.json_loads "[1, 2]" = Ret (Json.JArray [Json.JInt 1; Json.JInt 2])
  /\ extract Json.json_loads "42" = Ret (Json.JInt 42).
Proof.
  split.
  - apply (whole_parse_returned_unchanged Json.json_loads "[1, 2]" _);
      vm_compute; reflexivity.
  - apply (whole_parse_returned_unchanged Json.json_loads "42" _);
      vm_compute; reflexivity.
Defined.

End Extraction.

Section ClientProperties.

Import PyStr Genai LLMClient.

(** C5 (as the program has it). [generate_text] does not clamp: an explicit
    temperature is the temperature of the request, whatever its value; with
    no temperature given, the request carries the temperature of the
    client, which is 0.2 for a client built without one. *)
Theorem temperature_passed_through :
  (forall self t, cfg_temperature (generation_config self (Some t)) = t)
  /\ (forall self,
         cfg_temperature (generation_config self None) = self.(temperature))
  /\ (forall api_key model_name client,
         __init__ api_key model_name None = Ret client ->
         client.(temperature) = 2 # 10)
  /\ (forall (service : backend) self prompt t tr,
         snd (generate_text service self prompt t tr) =
         tr ++ [{| req_model := self.(model); req_prompt := prompt;
                   req_config := generation_config self t |}]).
Proof.
  repeat split.
  - intros api_key model_name client H. unfold __init__ in H.
    destruct (negb (nonempty api_key)); [discriminate|].
    inversion H. reflexivity.
  - intros service self prompt t tr. now rewrite generate_text_run.
Qed.

(** C5, as stated, fails at temperature 1.5: the request that is sent
    carries 1.5, which is above 1. *)
Lemma temperature_not_clamped :
  snd (generate_text silent_service sample_client "prompt" (Some (3 # 2)) []) =
  [{| req_model := sample_client.(model); req_prompt := "prompt";
      req_config := {| cfg_temperature := 3 # 2 |} |}]
  /\ ~ (3 # 2 <= 1)%Q.
Proof.
  split; [reflexivity|]. unfold Qle. simpl. lia.
Qed.

(** C7. A response whose text field gives no text and whose candidates give
    none either (an accessor that raises counts as giving none) makes
    [_first_text] return the empty string, and [generate_text] with it. *)
Theorem first_text_empty_when_no_text (response : Response) :
  text_field_empty response ->
  fragments_empty response ->
  _first_text response = Ret ""%string
  /\ forall (service : backend) self prompt temperature tr,
      service tr (request_of self prompt temperature) = Ret response ->
      generate_text service self prompt temperature tr =
      (Ret ""%string, tr ++ [request_of self prompt temperature]).
Proof.
  intros Ht Hf.
  assert (H : _first_text response = Ret ""%string).
  { unfold _first_text, text_field_empty in *.
    destruct (text response) as [t|e]; simpl.
    - unfold blank in Ht. now rewrite Ht.
    - destruct (fragments response) as [ts|e'] eqn:E; simpl; [|reflexivity].
      f_equal. apply strip_nil. apply all_space_join; [reflexivity|].
      exact (@fragments_blank _ _ Hf E). }
  split; [exact H|].
  intros service self prompt temperature tr Hs.
  rewrite generate_text_run, Hs. simpl. now rewrite H.
Qed.

Lemma first_text_empty_when_no_text_witness :
  _first_text hollow_response = Ret ""%string.
Proof.
  refine (proj1 (first_text_empty_when_no_text hollow_response _ _)).
  - exact I.
  - repeat constructor.
Defined.

(** C9. With a key that is not empty and a model name outside
    [SUPPORTED_MODELS], the constructor returns a client, and its model is
    the first supported one. *)
Theorem unsupported_model_falls_back
        (api_key model_name : string) (temperature : option Q) :
  api_key <> ""%string ->
  ~ In model_name SUPPORTED_MODELS ->
  exists client,
    __init__ api_key (Some model_name) temperature = Ret client
    /\ client.(LLMClient.model_name) = "models/gemini-2.0-flash"%string
    /\ client.(model).(gm_model_name) = "models/gemini-2.0-flash"%string
    /\ client.(LLMClient.temperature) = get_default temperature default_temperature.
Proof.
  intros Hkey Hmodel.
  assert (E : existsb (String.eqb model_name) SUPPORTED_MODELS = false).
  { destruct (existsb (String.eqb model_name) SUPPORTED_MODELS) eqn:E; [|reflexivity].
    apply existsb_exists in E. destruct E as [m [Hin Heq]].
    apply String.eqb_eq in Heq. subst m. contradiction. }
  apply nonempty_true in Hkey.
  unfold __init__. cbv beta iota delta [get_default]. rewrite Hkey, E.
  eexists. split; [reflexivity|]. repeat split.
Qed.

Lemma unsupported_model_falls_back_witness :
  exists client,
    __init__ "secret" (Some "models/gemini-ultra"%string) None = Ret client
    /\ client.(LLMClient.model_name) = "models/gemini-2.0-flash"%string
    /\ client.(model).(gm_model_name) = "models/gemini-2.0-flash"%string
    /\ client.(LLMClient.temperature) = default_temperature.
Proof.
  apply (unsupported_model_falls_back "secret" "models/gemini-ultra" None).
  - discriminate.
  - simpl. intros [H|[H|[]]]; discriminate.
Defined.

End ClientProperties.

Section PipelineProperties.

Import Genai LLMClient JobAnalyzer.

(** C6. With a backend whose every answer yields the empty text, each of
    the three stages sends its request and returns the empty mapping, none
    is skipped, and the check of [main] reports insufficient data. *)
Theorem silent_backend_flags_incomplete
        (service : backend) (loads : string -> outcome Json.json)
        (dumps : Json.json -> string) (job_analyzer : JobAnalyzer.t)
        (job_desc resume_text : string) (tr : trace) :
  (forall tr req, exists resp,
        service tr req = Ret resp /\ _first_text resp = Ret ""%string) ->
  loads ""%string = Raise JSONDecodeError ->
  let self := job_analyzer.(llm) in
  let r1 := request_of self (analyze_job_prompt job_desc) (Some (1 # 10)) in
  let r2 := request_of self (analyze_resume_prompt resume_text) (Some (1 # 10)) in
  let r3 := request_of self
              (analyze_match_prompt dumps Json.empty_mapping Json.empty_mapping)
              (Some (2 # 10)) in
  analyze_job service loads job_analyzer job_desc tr =
    (Ret Json.empty_mapping, tr ++ [r1])
  /\ analyze_resume service loads job_analyzer resume_text (tr ++ [r1]) =
       (Ret Json.empty_mapping, tr ++ [r1; r2])
  /\ analyze_match service loads dumps job_analyzer
       Json.empty_mapping Json.empty_mapping (tr ++ [r1; r2]) =
       (Ret Json.empty_mapping, tr ++ [r1; r2; r3])
  /\ run_analysis service loads dumps job_analyzer job_desc resume_text tr =
       (Ret InsufficientData, tr ++ [r1; r2; r3]).
Proof.
  intros Hsilent Hloads self r1 r2 r3.
  assert (Hx : extract loads ""%string = Ret Json.empty_mapping).
  { now rewrite (@extract_search _ _ Hloads). }
  assert (Hstage : forall prompt t tr',
             generate_json service loads self prompt t tr' =
             (Ret Json.empty_mapping, tr' ++ [request_of self prompt t])).
  { intros prompt t tr'.
    destruct (Hsilent tr' (request_of self prompt t)) as [resp [Hs Hr]].
    now rewrite (@generate_json_run _ loads _ _ _ _ _ _ Hs Hr), Hx. }
  assert (H1 : analyze_job service loads job_analyzer job_desc tr =
               (Ret Json.empty_mapping, tr ++ [r1])).
  { unfold analyze_job. apply Hstage. }
  assert (H2 : analyze_resume service loads job_analyzer resume_text (tr ++ [r1]) =
               (Ret Json.empty_mapping, tr ++ [r1; r2])).
  { unfold analyze_resume. fold self. rewrite Hstage, <- app_assoc. reflexivity. }
  assert (H3 : analyze_match service loads dumps job_analyzer
                 Json.empty_mapping Json.empty_mapping (tr ++ [r1; r2]) =
               (Ret Json.empty_mapping, tr ++ [r1; r2; r3])).
  { unfold analyze_match. fold self. rewrite Hstage, <- app_assoc. reflexivity. }
  repeat split; try assumption.
  unfold run_analysis, bind. rewrite H1, H2, H3. reflexivity.
Qed.

Lemma silent_backend_flags_incomplete_witness :
  fst (run_analysis silent_service Json.json_loads dumps_empty
         {| llm := sample_client |} "Python developer" "Ten years of Python" []) =
  Ret InsufficientData.
Proof.
  assert (Hsilent : forall tr req, exists resp,
               silent_service tr req = Ret resp /\ _first_text resp = Ret ""%string).
  { intros tr req. eexists. split; reflexivity. }
  assert (Hloads : Json.json_loads ""%string = Raise JSONDecodeError).
  { reflexivity. }
  destruct (silent_backend_flags_incomplete silent_service Json.json_loads
              dumps_empty {| llm := sample_client |}
              "Python developer" "Ten years of Python" [] Hsilent Hloads)
    as [_ [_ [_ H]]].
  rewrite H. reflexivity.
Defined.

End PipelineProperties.

Section ReconstructionProperties.

Import PyStr Resume.




(** C8. The two writers disagree on the line [Summary]: the first makes it
    a section header, the second an ordinary paragraph. Every header of the
    second writer is a header of the first, and a line on which they differ
    contains SUMMARY or OBJECTIVE once upper-cased. *)
Theorem writers_disagree_on_summary :
  (exists line,
      isupper line = false
      /\ is_section line = true
      /\ is_section1 line = false
      /\ In (Paragraph line section_header_style)
           (generate_updated_resume line None)
      /\ In (Paragraph line Normal) (generate_updated_resume1 line None))
  /\ (forall line, is_section1 line = true -> is_section line = true)
  /\ (forall line,
         is_section line = true -> is_section1 line = false ->
         contains "SUMMARY" (upper line) = true
         \/ contains "OBJECTIVE" (upper line) = true).
Proof.
  split.
  - exists "Summary"%string. repeat split; try (vm_compute; reflexivity).
    + vm_compute. tauto.
    + vm_compute. tauto.
  - split; [exact keyword_lists_nested | exact keyword_lists_differ].
Qed.

End ReconstructionProperties.

(* ===================================================================== *)
(** * Further properties of the client and of the stages *)
(* ===================================================================== *)

Section ExtractionMore.

Import PyStr Genai LLMClient.

(** X1. A payload between commentary is recovered: when the whole text does
    not parse, what stands before the payload has no opening brace and
    what stands after it has no closing brace, the extraction returns the
    value of the payload. *)
Theorem payload_recovered_from_commentary
        (loads : string -> outcome Json.json) (pre body post : string)
        (v : Json.json) :
  loads (pre ++ (String "{" body ++ "}") ++ post)%string = Raise JSONDecodeError ->
  has_char "{" pre = false ->
  has_char "}" post = false ->
  loads (String "{" body ++ "}")%string = Ret v ->
  extract loads (pre ++ (String "{" body ++ "}") ++ post) = Ret v.
Proof.
  intros Hraw Hpre Hpost Hv.
  set (payload := (String "{" body ++ "}")%string) in *.
  set (raw := (pre ++ payload ++ post)%string) in *.
  assert (Hany : Re.search span_anywhere raw = Some payload).
  { apply search_span_anywhere. now exists pre, body, post. }
  assert (Hparse : parse_or_empty loads payload = Ret v).
  { unfold parse_or_empty. now rewrite Hv. }
  rewrite (@extract_search _ _ Hraw).
  destruct (Re.search span_to_end raw) as [m|] eqn:E.
  - apply search_span_to_end in E.
    destruct E as [pre' [body' [tail [Hdec [Hm [Hpre' Ht]]]]]].
    assert (Hm' : Re.search span_anywhere raw = Some m).
    { apply search_span_anywhere. exists pre', body', tail.
      repeat split; try assumption. destruct Ht as [->| ->]; reflexivity. }
    rewrite Hany in Hm'. inversion Hm'; subst m. exact Hparse.
  - now rewrite Hany.
Qed.

Lemma payload_recovered_from_commentary_witness :
  extract Json.json_loads Samples.wrapped_object =
  Ret (Json.JObject [("a"%string, Json.JInt 1)]).
Proof.
  apply (payload_recovered_from_commentary Json.json_loads
           "Here is the result: " (dq ++ "a" ++ dq ++ ":1") " Thanks!");
    vm_compute; reflexivity.
Defined.

(** X2. The extraction invents nothing: a value it returns is the parse of
    the whole text, or the empty mapping, or the parse of a part of the
    text that starts with an opening brace and ends with a closing one. *)
Theorem extract_provenance
        (loads : string -> outcome Json.json) (raw : string) (v : Json.json) :
  extract loads raw = Ret v ->
  loads raw = Ret v
  \/ v = Json.empty_mapping
  \/ exists pre body post,
      raw = (pre ++ (String "{" body ++ "}") ++ post)%string
      /\ loads (String "{" body ++ "}")%string = Ret v.
Proof.
  intros H. destruct (loads raw) as [v0|e] eqn:Hraw.
  - left. rewrite (@extract_whole _ _ _ Hraw) in H. exact H.
  - right.
    assert (He : e = JSONDecodeError).
    { unfold extract in H. rewrite Hraw in H. destruct e; simpl in H;
        [reflexivity | discriminate | discriminate]. }
    subst e. rewrite (@extract_search _ _ Hraw) in H.
    assert (Hspan : forall m pre body post,
               raw = (pre ++ m ++ post)%string ->
               m = (String "{" body ++ "}")%string ->
               parse_or_empty loads m = Ret v ->
               v = Json.empty_mapping
               \/ exists pre body post,
                   raw = (pre ++ (String "{" body ++ "}") ++ post)%string
                   /\ loads (String "{" body ++ "}")%string = Ret v).
    { intros m pre body post Hdec Hm Hp. unfold parse_or_empty in Hp.
      destruct (loads m) as [v'|e'] eqn:Em; simpl in Hp.
      - right. exists pre, body, post. subst m. split; [exact Hdec|].
        rewrite Em. exact Hp.
      - destruct e'; simpl in Hp; try discriminate. left. now inversion Hp. }
    destruct (Re.search span_to_end raw) as [m|] eqn:E.
    + apply search_span_to_end in E.
      destruct E as [pre [body [tail [Hdec [Hm _]]]]].
      exact (Hspan _ _ _ _ Hdec Hm H).
    + destruct (Re.search span_anywhere raw) as [m|] eqn:E'.
      * apply search_span_anywhere in E'.
        destruct E' as [pre [body [post [Hdec [Hm _]]]]].
        exact (Hspan _ _ _ _ Hdec Hm H).
      * left. now inversion H.
Qed.

Lemma extract_provenance_witness :
  Json.json_loads Samples.wrapped_object
  = Ret (Json.JObject [("a"%string, Json.JInt 1)])
  \/ Json.JObject [("a"%string, Json.JInt 1)] = Json.empty_mapping
  \/ exists pre body post,
      Samples.wrapped_object = (pre ++ (String "{" body ++ "}") ++ post)%string
      /\ Json.json_loads (String "{" body ++ "}")%string
         = Ret (Json.JObject [("a"%string, Json.JInt 1)]).
Proof.
  apply (extract_provenance Json.json_loads Samples.wrapped_object).
  vm_compute. reflexivity.
Defined.

End ExtractionMore.

Section ClientMore.

Import PyStr Genai LLMClient.

(** X3. [_first_text] always returns, and what it returns is stripped. When
    the text accessor answers, the candidates are not looked at: the
    result is the stripped text, the empty string for [None]. *)
Theorem first_text_is_stripped (response : Response) :
  exists s,
    _first_text response = Ret s
    /\ strip s = s
    /\ (forall t, text response = Ret t -> s = strip (or_empty t)).
Proof.
  unfold _first_text.
  destruct (text response) as [t|e]; simpl.
  - exists (strip (or_empty t)). repeat split; [apply strip_idem|].
    intros t' H. now inversion H.
  - destruct (fragments response) as [ts|e']; simpl.
    + eexists. repeat split; [apply strip_idem | discriminate].
    + exists ""%string. repeat split. discriminate.
Qed.


End ClientMore.

Lemma substring_here (x post : string) : PyStr.substring_of x (x ++ post).
Proof. now exists ""%string, post. Qed.

Lemma substring_later (x a s : string) :
  PyStr.substring_of x s -> PyStr.substring_of x (a ++ s).
Proof.
  intros [pre [post ->]]. exists (a ++ pre)%string, post.
  now rewrite append_assoc.
Qed.

Lemma substring_self (x : string) : PyStr.substring_of x x.
Proof. exists ""%string, ""%string. simpl. now rewrite append_nil_r. Qed.

Ltac find_substring :=
  repeat first [ apply substring_here | apply substring_self
               | apply substring_later ].

Section PipelineMore.

Import PyStr Genai LLMClient JobAnalyzer.

Lemma generate_json_trace (service : backend) (loads : string -> outcome Json.json)
      (self : LLMClient.t) (prompt : string) (t : option Q) (tr : trace) :
  snd (generate_json service loads self prompt t tr) =
  tr ++ [request_of self prompt t].
Proof.
  unfold generate_json, bind. rewrite generate_text_run.
  destruct (service tr (request_of self prompt t)) as [resp|e]; [|reflexivity].
  simpl. destruct (_first_text resp); reflexivity.
Qed.

(** X5. A failure of the backend is not caught: [generate_text] and
    [generate_json] raise what the backend raised, after that one request,
    and the analysis stops at its first stage with the same error. *)
Theorem backend_failure_propagates
        (service : backend) (loads : string -> outcome Json.json)
        (self : LLMClient.t) (prompt : string) (t : option Q) (tr : trace)
        (e : exn) :
  service tr (request_of self prompt t) = Raise e ->
  generate_text service self prompt t tr = (Raise e, tr ++ [request_of self prompt t])
  /\ generate_json service loads self prompt t tr
     = (Raise e, tr ++ [request_of self prompt t])
  /\ forall dumps job_analyzer job_desc resume_text,
      job_analyzer.(llm) = self ->
      prompt = analyze_job_prompt job_desc ->
      t = Some (1 # 10) ->
      run_analysis service loads dumps job_analyzer job_desc resume_text tr
      = (Raise e, tr ++ [request_of self prompt t]).
Proof.
  intros Hs.
  assert (Ht : generate_text service self prompt t tr
               = (Raise e, tr ++ [request_of self prompt t])).
  { now rewrite generate_text_run, Hs. }
  assert (Hj : generate_json service loads self prompt t tr
               = (Raise e, tr ++ [request_of self prompt t])).
  { unfold generate_json, bind. now rewrite Ht. }
  repeat split; try assumption.
  intros dumps job_analyzer job_desc resume_text Hself Hprompt Htemp.
  unfold run_analysis, bind, analyze_job. subst. now rewrite Hj.
Qed.

Lemma backend_failure_propagates_witness :
  run_analysis Samples.failing_service Json.json_loads dumps_empty
    {| llm := sample_client |} "Python developer" "Ten years of Python" []
  = (Raise (OtherError "ServiceUnavailable"),
     [request_of sample_client (analyze_job_prompt "Python developer")
        (Some (1 # 10))]).
Proof.
  refine (proj2 (proj2 (backend_failure_propagates Samples.failing_service
                          Json.json_loads sample_client
                          (analyze_job_prompt "Python developer") (Some (1 # 10))
                          [] (OtherError "ServiceUnavailable") _))
            dumps_empty {| llm := sample_client |} "Python developer"
            "Ten years of Python" _ _ _); reflexivity.
Defined.



(** X7. Each stage puts its input into its prompt as it is: the job text,
    the resume text, and for the match the serialized job and resume
    profiles and the serialized example. The temperatures are 0.1, 0.1 and
    0.2 whatever the temperature of the client. *)
Theorem prompts_embed_inputs
        (service : backend) (loads : string -> outcome Json.json)
        (dumps : Json.json -> string) (job_analyzer : JobAnalyzer.t) (tr : trace) :
  (forall job_description,
      exists req,
        snd (analyze_job service loads job_analyzer job_description tr) = tr ++ [req]
        /\ substring_of job_description req.(req_prompt)
        /\ req.(req_config).(cfg_temperature) = 1 # 10)
  /\ (forall resume_text,
         exists req,
           snd (analyze_resume service loads job_analyzer resume_text tr) = tr ++ [req]
           /\ substring_of resume_text req.(req_prompt)
           /\ req.(req_config).(cfg_temperature) = 1 # 10)
  /\ (forall job_analysis resume_analysis,
         exists req,
           snd (analyze_match service loads dumps job_analyzer job_analysis
                  resume_analysis tr) = tr ++ [req]
           /\ substring_of (dumps job_analysis) req.(req_prompt)
           /\ substring_of (dumps resume_analysis) req.(req_prompt)
           /\ substring_of (dumps structure) req.(req_prompt)
           /\ req.(req_config).(cfg_temperature) = 2 # 10).
Proof.
  split; [|split].
  - intros job_description. eexists. split; [apply generate_json_trace|].
    split; [|reflexivity]. unfold request_of. cbn [req_prompt].
    unfold analyze_job_prompt. find_substring.
  - intros resume_text. eexists. split; [apply generate_json_trace|].
    split; [|reflexivity]. unfold request_of. cbn [req_prompt].
    unfold analyze_resume_prompt. find_substring.
  - intros job_analysis resume_analysis. eexists.
    split; [apply generate_json_trace|].
    unfold request_of. cbn [req_prompt]. unfold analyze_match_prompt.
    split; [find_substring|]. split; [find_substring|].
    split; [find_substring | reflexivity].
Qed.

End PipelineMore.

Section CoverLetterMore.

Import PyStr Genai LLMClient CoverLetterGenerator.


End CoverLetterMore.

(* ===================================================================== *)
(** * Reading the resume, and the page *)
(* ===================================================================== *)

Section FilesMore.

Import PyStr Builtins Files.

Lemma page_step_text (text : string) (page : Page) :
  page_step text page = (text ++ page_text page)%string.
Proof.
  unfold page_step, page_text.
  destruct (extract_text page) as [[t|]|e]; simpl;
    rewrite ?append_nil_r; reflexivity.
Qed.

Lemma pages_loop (pages : list Page) (text : string) :
  fold_left page_step pages text
  = (text ++ concat_all (map page_text pages))%string.
Proof.
  revert text. induction pages as [|p pages IH]; intros text; simpl.
  - now rewrite append_nil_r.
  - now rewrite IH, page_step_text, append_assoc.
Qed.

Lemma concat_all_app (a b : list string) :
  concat_all (a ++ b) = (concat_all a ++ concat_all b)%string.
Proof.
  induction a as [|x a IH]; simpl; [reflexivity|].
  now rewrite IH, append_assoc.
Qed.

(** X9. [read_pdf] returns the texts of the pages one after the other, in
    the order of the pages; a page whose extraction raises, or gives
    nothing, is passed over and the rest is still read. When no page can
    be read the text is empty, and no error is raised. *)
Theorem read_pdf_skips_unreadable_pages (file : UploadedFile) (pages : list Page) :
  file.(pdf_pages) = Ret pages ->
  read_pdf file = Ret (concat_all (map page_text pages))
  /\ concat_all (map page_text (filter readable pages))
     = concat_all (map page_text pages)
  /\ (forall before after,
         pages = before ++ after ->
         read_pdf file
         = Ret (concat_all (map page_text before)
                ++ concat_all (map page_text after))%string)
  /\ ((forall page, In page pages -> readable page = false) ->
      read_pdf file = Ret ""%string).
Proof.
  intros Hp.
  assert (Hr : read_pdf file = Ret (concat_all (map page_text pages))).
  { unfold read_pdf. rewrite Hp. simpl. now rewrite pages_loop. }
  assert (Hf : forall l, concat_all (map page_text (filter readable l))
                         = concat_all (map page_text l)).
  { induction l as [|p l IH]; [reflexivity|]. simpl.
    unfold readable at 1, page_text at 2.
    destruct (extract_text p) as [[t|]|e] eqn:E; simpl; rewrite ?IH;
      [unfold page_text at 1; now rewrite E | reflexivity | reflexivity]. }
  split; [exact Hr|]. split; [apply Hf|]. split.
  - intros before after ->. now rewrite Hr, map_app, concat_all_app.
  - intros Hnone. rewrite Hr, <- Hf.
    replace (filter readable pages) with (@nil Page); [reflexivity|].
    clear Hr Hp. induction pages as [|p l IH]; [reflexivity|]. simpl.
    rewrite (Hnone p (or_introl eq_refl)). apply IH.
    intros q Hq. apply Hnone. now right.
Qed.

Lemma read_pdf_skips_unreadable_pages_witness :
  read_pdf scanned_pdf = Ret ""%string.
Proof.
  refine (proj2 (proj2 (proj2 (read_pdf_skips_unreadable_pages scanned_pdf _ eq_refl))) _).
  intros page [<-|[<-|[]]]; reflexivity.
Defined.

Lemma lower_app (a b : string) : lower (a ++ b) = (lower a ++ lower b)%string.
Proof. induction a as [|c a IH]; simpl; [reflexivity | now rewrite IH]. Qed.

Lemma endswith_unfold (suffix s : string) :
  endswith suffix s =
  (s =? suffix)%string ||
  match s with
  | EmptyString => false
  | String _ s' => endswith suffix s'
  end.
Proof. destruct s; reflexivity. Qed.

Lemma endswith_app (stem suffix : string) : endswith suffix (stem ++ suffix) = true.
Proof.
  induction stem as [|c stem IH]; simpl append; rewrite endswith_unfold.
  - now rewrite String.eqb_refl.
  - rewrite IH. apply orb_true_r.
Qed.

Lemma endswith_spec (suffix s : string) :
  endswith suffix s = true -> exists stem, s = (stem ++ suffix)%string.
Proof.
  induction s as [|c s IH]; rewrite endswith_unfold; intros H;
    apply orb_true_iff in H; destruct H as [H|H].
  - apply String.eqb_eq in H. now exists ""%string.
  - discriminate.
  - apply String.eqb_eq in H. now exists ""%string.
  - destruct (IH H) as [stem ->]. now exists (String c stem).
Qed.

Lemma append_last_char (a b : string) (c d : ascii) :
  (a ++ String c "")%string = (b ++ String d "")%string -> c = d.
Proof.
  revert b. induction a as [|x a IH]; intros [|y b] H; simpl in H.
  - now inversion H.
  - inversion H as [[Hc Hb]]. now destruct b.
  - inversion H as [[Hc Ha]]. now destruct a.
  - inversion H as [[Hc Hab]]. exact (IH _ Hab).
Qed.

Lemma docx_is_no_pdf (stem : string) : endswith ".pdf" (stem ++ ".docx") = false.
Proof.
  destruct (endswith ".pdf" (stem ++ ".docx")) eqn:E; [|reflexivity].
  apply endswith_spec in E. destruct E as [stem' H].
  replace (stem ++ ".docx")%string with ((stem ++ ".doc") ++ String "x" "")%string in H
    by (rewrite append_assoc; reflexivity).
  replace (stem' ++ ".pdf")%string with ((stem' ++ ".pd") ++ String "f" "")%string in H
    by (rewrite append_assoc; reflexivity).
  apply append_last_char in H. discriminate.
Qed.

(** X10. [load_resume] chooses the reader by the end of the file name,
    whatever the case of its letters: a name in [.pdf] is read as a PDF, a
    name in [.docx] as a document, and the error of the reader, if any, is
    raised. Any other name gives no text and the message Unsupported file
    format; neither reader is called. *)
Theorem load_resume_by_extension (file : UploadedFile) :
  (forall stem ext,
      file.(name) = (stem ++ ext)%string -> lower ext = ".pdf"%string ->
      load_resume file = (Outcome.map Some (read_pdf file), []))
  /\ (forall stem ext,
         file.(name) = (stem ++ ext)%string -> lower ext = ".docx"%string ->
         load_resume file = (Outcome.map Some (read_docx file), []))
  /\ (endswith ".pdf" (lower file.(name)) = false ->
      endswith ".docx" (lower file.(name)) = false ->
      load_resume file = (Ret None, [st_error unsupported_format])).
Proof.
  unfold load_resume. split; [|split].
  - intros stem ext Hn He. now rewrite Hn, lower_app, He, endswith_app.
  - intros stem ext Hn He.
    now rewrite Hn, lower_app, He, docx_is_no_pdf, endswith_app.
  - intros H1 H2. now rewrite H1, H2.
Qed.

End FilesMore.

Section PageMore.

Import PyStr Builtins Files App Genai LLMClient JobAnalyzer.

(** X11. [main] sends no request unless it has a job description and a
    resume file that was read to a text that is not empty; with them, the
    requests are those of the analysis of that job description and that
    text. *)
Theorem no_request_without_inputs
        (service : backend) (loads : string -> outcome Json.json)
        (dumps : Json.json -> string) (job_analyzer : JobAnalyzer.t)
        (job_desc : string) (resume_file : option UploadedFile) (tr : trace) :
  snd (main_analysis service loads dumps job_analyzer job_desc resume_file tr) = tr
  \/ (job_desc <> ""%string
      /\ exists file resume_text,
          resume_file = Some file
          /\ fst (load_resume file) = Ret (Some resume_text)
          /\ resume_text <> ""%string
          /\ snd (main_analysis service loads dumps job_analyzer job_desc
                    resume_file tr)
             = snd (run_analysis service loads dumps job_analyzer job_desc
                      resume_text tr)).
Proof.
  unfold main_analysis.
  destruct (nonempty job_desc) eqn:Ej, resume_file as [file|]; try (left; reflexivity).
  destruct (load_resume file) as [[resume_text|e] shown] eqn:El; [|left; reflexivity].
  destruct resume_text as [[|c text]|]; try (left; reflexivity).
  right. split; [now apply nonempty_true|].
  exists file, (String c text).
  split; [reflexivity|]. split; [now rewrite El|]. split; [discriminate|].
  simpl.
  destruct (run_analysis service loads dumps job_analyzer job_desc (String c text) tr)
    as [[[|j r m]|e] tr']; reflexivity.
Qed.

(** X12. What [main] shows when the resume gives no text: for a file that
    is neither PDF nor DOCX, the two errors Unsupported file format and
    Could not read your resume; for a PDF none of whose pages can be
    read, the second one alone. In both cases [main] returns and nothing
    was sent. *)
Theorem unreadable_resume_is_reported
        (service : backend) (loads : string -> outcome Json.json)
        (dumps : Json.json -> string) (job_analyzer : JobAnalyzer.t)
        (job_desc : string) (file : UploadedFile) (tr : trace) :
  job_desc <> ""%string ->
  (endswith ".pdf" (lower file.(name)) = false ->
   endswith ".docx" (lower file.(name)) = false ->
   main_analysis service loads dumps job_analyzer job_desc (Some file) tr
   = (Ret Returned, [st_error unsupported_format; st_error could_not_read], tr))
  /\ (forall pages,
         endswith ".pdf" (lower file.(name)) = true ->
         file.(pdf_pages) = Ret pages ->
         (forall page, In page pages -> readable page = false) ->
         main_analysis service loads dumps job_analyzer job_desc (Some file) tr
         = (Ret Returned, [st_error could_not_read], tr)).
Proof.
  intros Hj. apply nonempty_true in Hj. unfold main_analysis. rewrite Hj. split.
  - intros H1 H2. unfold load_resume. now rewrite H1, H2.
  - intros pages Hn Hp Hnone. unfold load_resume. rewrite Hn.
    assert (Hr : read_pdf file = Ret ""%string).
    { unfold read_pdf. rewrite Hp. simpl. rewrite pages_loop. simpl. f_equal.
      clear Hp. induction pages as [|p l IH]; [reflexivity|]. simpl.
      assert (Hp : readable p = false) by (apply Hnone; now left).
      unfold readable in Hp. unfold page_text at 1.
      destruct (extract_text p) as [[t|]|e]; try discriminate;
        (simpl; apply IH; intros q Hq; apply Hnone; now right). }
    now rewrite Hr.
Qed.

Lemma unreadable_resume_is_reported_witness :
  main_analysis silent_service Json.json_loads dumps_empty
    {| JobAnalyzer.llm := sample_client |} "Python developer" (Some text_file) []
  = (Ret Returned, [st_error unsupported_format; st_error could_not_read], []).
Proof.
  refine (proj1 (unreadable_resume_is_reported silent_service Json.json_loads
                   dumps_empty {| JobAnalyzer.llm := sample_client |}
                   "Python developer" text_file [] _) _ _);
    [discriminate | reflexivity | reflexivity].
Defined.

(** X13. A key typed on the page wins over the stored secret and over the
    environment, and it is stripped; a typed key of white space only
    therefore gives the empty key, and [main] shows the welcome page even
    when a secret is stored. With nothing typed, the secret is used as it
    is when there is one; when the secrets cannot be read, or have no
    such key, the environment variable is used. *)
Theorem typed_key_wins (secrets : outcome environ) (env : environ) :
  (forall key,
      key <> ""%string ->
      resolve_api_key_from_inputs secrets env (Some key) = Some (strip key))
  /\ (forall key,
         key <> ""%string -> all_space key = true ->
         welcome_page (resolve_api_key_from_inputs secrets env (Some key)) = true)
  /\ (forall typed,
         or_empty typed = ""%string ->
         resolve_api_key_from_inputs secrets env typed
         = match secrets with
           | Ret stored =>
               match stored GEMINI_API_KEY with
               | Some v => Some v
               | None => env GEMINI_API_KEY
               end
           | Raise _ => env GEMINI_API_KEY
           end).
Proof.
  unfold resolve_api_key_from_inputs. split; [|split].
  - intros key Hk. simpl. apply nonempty_true in Hk. now rewrite Hk.
  - intros key Hk Hs. simpl. apply nonempty_true in Hk. rewrite Hk.
    unfold welcome_page. simpl. now rewrite (proj2 (strip_nil key) Hs).
  - intros typed Ht. rewrite Ht. simpl.
    destruct secrets as [stored|e]; simpl; [|reflexivity].
    destruct (stored GEMINI_API_KEY); reflexivity.
Qed.

End PageMore.

(* ===================================================================== *)
(** * The quality of the match *)
(* ===================================================================== *)

Section QualityMore.

Import PyStr Builtins App.
Local Open Scope nat_scope.

Lemma digit_char_facts (c : ascii) :
  Json.is_digit c = true ->
  int_space c = false
  /\ Ascii.eqb c "-" = false /\ Ascii.eqb c "+" = false
  /\ Ascii.eqb c "_" = false /\ Ascii.eqb c "%" = false.
Proof.
  destruct c as [[] [] [] [] [] [] [] []]; vm_compute; intros H;
    try discriminate; repeat split.
Qed.

(** A literal that is a run of digits reads as its value. *)
Lemma int_of_digit_run (c : ascii) (s : string) (value : Z) (count : nat) :
  Json.is_digit c = true ->
  scan_run false 0 0%Z (String c s) = Some (value, count, ""%string) ->
  0 < count -> count <= int_max_str_digits ->
  int_of_str (String c s) = Ret value.
Proof.
  intros Hc Hrun Hpos Hmax.
  destruct (digit_char_facts c Hc) as [Hs [Hm [Hp [Hu _]]]].
  unfold int_of_str. cbn [skip_int_space]. rewrite Hs, Hm, Hp, Hu, Hrun.
  destruct (int_max_str_digits <? count) eqn:E1; [apply Nat.ltb_lt in E1; lia|].
  destruct (count =? 0) eqn:E2; [apply Nat.eqb_eq in E2; lia|].
  reflexivity.
Qed.

Lemma scan_run_decimal (d : Decimal.uint) :
  forall count acc,
    scan_run false count (Z.of_nat acc) (NilEmpty.string_of_uint d)
    = Some (Z.of_nat (Nat.of_uint_acc d acc), count + Decimal.nb_digits d, ""%string).
Proof.
  induction d; intros count acc; cbn [NilEmpty.string_of_uint Decimal.nb_digits];
    [simpl; now rewrite Nat.add_0_r | ..];
    cbn [scan_run]; change (Json.is_digit _) with true; cbv iota;
    cbn [Nat.of_uint_acc]; rewrite Nat.tail_mul_spec;
    match goal with
    | |- scan_run false _ ?z _ = Some (Z.of_nat (Nat.of_uint_acc _ ?a), _, _) =>
        replace z with (Z.of_nat a)
          by (match goal with
              | |- context [PyStr.code ?c - 48] =>
                  let v := eval vm_compute in (PyStr.code c - 48) in
                  change (PyStr.code c - 48) with v
              end; lia)
    end;
    rewrite IHd, Nat.add_succ_r; reflexivity.
Qed.

Lemma decimal_length (d : Decimal.uint) :
  String.length (NilEmpty.string_of_uint d) = Decimal.nb_digits d.
Proof. induction d; simpl; congruence. Qed.

Lemma decimal_has_no_percent (d : Decimal.uint) (tail : string) :
  replace_char "%" "" (NilEmpty.string_of_uint d ++ tail)
  = (NilEmpty.string_of_uint d ++ replace_char "%" "" tail)%string.
Proof. induction d; simpl; congruence. Qed.

Lemma to_uint_not_nil (n : nat) : Nat.to_uint n <> Decimal.Nil.
Proof.
  intros H. pose proof (DecimalNat.Unsigned.to_of (Nat.to_uint n)) as E.
  rewrite DecimalNat.Unsigned.of_to, H in E. discriminate.
Qed.

(** [int(str(n))] is [n], as long as [n] has no more digits than [int]
    accepts. *)
Lemma int_of_str_of_nat (n : nat) :
  String.length (str_of_nat n) <= int_max_str_digits ->
  int_of_str (str_of_nat n) = Ret (Z.of_nat n).
Proof.
  unfold str_of_nat. intros Hlen. rewrite decimal_length in Hlen.
  pose proof (scan_run_decimal (Nat.to_uint n) 0 0) as Hrun.
  change (Nat.of_uint_acc (Nat.to_uint n) 0) with (Nat.of_uint (Nat.to_uint n)) in Hrun.
  rewrite DecimalNat.Unsigned.of_to in Hrun. simpl Z.of_nat in Hrun at 1.
  simpl plus in Hrun.
  pose proof (to_uint_not_nil n) as Hnil.
  destruct (Nat.to_uint n) as [|d|d|d|d|d|d|d|d|d|d] eqn:E; [contradiction | ..];
    cbn [NilEmpty.string_of_uint] in *;
    (eapply int_of_digit_run; [reflexivity | exact Hrun | simpl; lia | exact Hlen]).
Qed.

(** X14. For a report whose percentage is written as a number followed by
    the percent sign, the quality is Excellent from 80 on, Good from 60 to
    79 and Needs Work below. *)
Theorem match_quality_thresholds (n : nat) :
  String.length (str_of_nat n) <= int_max_str_digits ->
  match_quality (report_with_percentage n)
  = Ret (if 80 <=? n then excellent else if 60 <=? n then good else needs_work).
Proof.
  intros Hlen.
  assert (Hget : dict_get (report_with_percentage n) "overall_match_percentage"
                   (Json.JString "0%")
                 = Ret (Json.JString (str_of_nat n ++ "%"))) by reflexivity.
  assert (Hrep : value_replace (Json.JString (str_of_nat n ++ "%")) "%" ""
                 = Ret (str_of_nat n)).
  { unfold value_replace, str_of_nat. rewrite decimal_has_no_percent.
    simpl replace_char. now rewrite append_nil_r. }
  unfold match_quality. rewrite Hget. cbn [Outcome.bind]. rewrite Hrep.
  cbn [Outcome.bind]. rewrite (int_of_str_of_nat n Hlen).
  cbn [Outcome.bind Outcome.try_except].
  destruct (Nat.leb_spec 80 n) as [H8|H8].
  - replace (80 <=? Z.of_nat n)%Z with true by (symmetry; apply Z.leb_le; lia).
    reflexivity.
  - replace (80 <=? Z.of_nat n)%Z with false by (symmetry; apply Z.leb_gt; lia).
    destruct (Nat.leb_spec 60 n) as [H6|H6].
    + replace (60 <=? Z.of_nat n)%Z with true by (symmetry; apply Z.leb_le; lia).
      reflexivity.
    + replace (60 <=? Z.of_nat n)%Z with false by (symmetry; apply Z.leb_gt; lia).
      reflexivity.
Qed.

Lemma match_quality_thresholds_witness :
  match_quality (report_with_percentage 85) = Ret excellent.
Proof.
  apply (match_quality_thresholds 85). vm_compute. lia.
Defined.


End QualityMore.

(* ===================================================================== *)
(** * The second writer *)
(* ===================================================================== *)

Section SecondWriter.

Import PyStr Resume Resume1.
Local Open Scope nat_scope.

Lemma parts_loop1 (parts : list string) (content : list flowable) :
  fold_left part_step1 parts content = content ++ flat_map part_flow parts.
Proof.
  revert content. induction parts as [|p parts IH]; intros content; simpl.
  - now rewrite app_nil_r.
  - rewrite IH. unfold part_step1, part_flow. now rewrite <- !app_assoc.
Qed.

Lemma suggestion_step1_entry (content : list flowable) (s : Suggestion) :
  suggestion_step1 content s = content ++ entry1 s.
Proof.
  unfold suggestion_step1, entry1, append_if, optional_line1.
  destruct (truthy_opt (current_content s)), (truthy_opt (suggested_change s)),
    (truthy_list (get_default (keywords_to_add s) [])),
    (truthy_opt (formatting_suggestion s));
    simpl; rewrite <- ?app_assoc; reflexivity.
Qed.

Lemma suggestions_loop1 (l : list Suggestion) (content : list flowable) :
  fold_left suggestion_step1 l content = content ++ flat_map entry1 l.
Proof.
  revert content. induction l as [|s l IH]; intros content; simpl.
  - now rewrite app_nil_r.
  - now rewrite IH, suggestion_step1_entry, <- app_assoc.
Qed.

Lemma generate_updated_resume1_layout (resume_text : string)
      (match_analysis : option MatchReport) :
  generate_updated_resume1 resume_text match_analysis =
  [Paragraph "Updated Resume" Heading1; Spacer 1 12]
  ++ flat_map part_flow (resume_parts1 resume_text)
  ++ recommendations1 (suggestions_of match_analysis).
Proof.
  unfold generate_updated_resume1. rewrite parts_loop1.
  destruct (suggestions_of match_analysis) as [|s l]; simpl truthy_list; cbv iota.
  - simpl. now rewrite app_nil_r.
  - rewrite suggestions_loop1. unfold recommendations1.
    simpl. rewrite <- !app_assoc. reflexivity.
Qed.

Lemma entry1_has_no_reason (s : Suggestion) (f : flowable) (r : string) :
  In f (entry1 s) -> f <> Paragraph ("  Reason: " ++ r) RecommendationStyle.
Proof.
  unfold entry1, optional_line1. intros Hin Hf. subst f.
  repeat (apply in_app_or in Hin; destruct Hin as [Hin|Hin]);
    repeat match goal with
           | H : In _ (if ?b then _ else _) |- _ => destruct b
           end;
    simpl in Hin;
    repeat match goal with
           | H : _ \/ _ |- _ => destruct H
           | H : False |- _ => destruct H
           | H : Paragraph _ _ = Paragraph _ _ |- _ => inversion H; clear H
           | H : Spacer _ _ = Paragraph _ _ |- _ => discriminate H
           end.
Qed.


Lemma cons_line_app (c : ascii) (l : string) (ls tail : list string) :
  cons_line c ((l :: ls) ++ tail) = cons_line c (l :: ls) ++ tail.
Proof. reflexivity. Qed.

(** With newlines as the only line boundaries, [split] gives the lines of
    [splitlines], and one more empty line when the text is empty or ends
    with a newline. *)
Lemma split_nl_splitlines (s : string) :
  only_newlines s = true ->
  exists tail,
    (tail = [] \/ tail = [""%string]) /\ split_nl s = splitlines s ++ tail.
Proof.
  unfold only_newlines. rewrite negb_true_iff.
  induction s as [|c s IH]; intros H.
  - exists [""%string]. split; [now right | reflexivity].
  - simpl in H. apply orb_false_iff in H. destruct H as [Hc Hs].
    destruct (IH Hs) as [tail [Ht Heq]].
    cbn [split_nl splitlines]. rewrite Heq.
    destruct (Ascii.eqb_spec c LF) as [->|Hne].
    + change (is_linebreak LF) with true. cbv iota.
      destruct s as [|c' s'].
      * exists [""%string]. split; [now right|]. simpl in Heq.
        now rewrite <- Heq.
      * change (Ascii.eqb LF CR) with false. simpl andb. cbv iota.
        exists tail. split; [exact Ht | reflexivity].
    + assert (Hb : is_linebreak c = false).
      { destruct (is_linebreak c); [simpl in Hc; discriminate | reflexivity]. }
      rewrite Hb. destruct (splitlines s) as [|l ls].
      * exists []. split; [now left|]. simpl.
        destruct Ht as [->| ->]; reflexivity.
      * exists tail. split; [exact Ht | apply cons_line_app].
Qed.



Lemma cons_line_blank (c : ascii) (ls : list string) :
  isspace c = true ->
  Forall (fun l => all_space l = true) ls ->
  Forall (fun l => all_space l = true) (cons_line c ls).
Proof.
  intros Hc H. destruct H as [|l ls Hl Hls]; simpl.
  - repeat constructor. simpl. now rewrite Hc.
  - constructor; [simpl; now rewrite Hc, Hl | exact Hls].
Qed.

Lemma splitlines_blank (s : string) :
  all_space s = true -> Forall (fun l => all_space l = true) (splitlines s).
Proof.
  assert (G : forall n s, String.length s <= n -> all_space s = true ->
                          Forall (fun l => all_space l = true) (splitlines s)).
  { induction n as [|n IH]; intros [|c t] Hlen Hs; try constructor;
      simpl in Hlen; try lia.
    simpl in Hs. apply andb_true_iff in Hs. destruct Hs as [Hc Ht].
    cbn [splitlines]. destruct (is_linebreak c).
    - destruct t as [|c' t']; [repeat constructor|].
      simpl in Ht. apply andb_true_iff in Ht. destruct Ht as [Hc' Ht'].
      destruct (Ascii.eqb c CR && Ascii.eqb c' LF); constructor; try reflexivity.
      + apply IH; [simpl in Hlen; lia | exact Ht'].
      + apply IH; [simpl in *; lia | simpl; now rewrite Hc', Ht'].
    - apply cons_line_blank; [exact Hc|]. apply IH; [lia | exact Ht]. }
  intros H. exact (G (String.length s) s (le_n _) H).
Qed.

Lemma split_nl_blank (s : string) :
  all_space s = true -> Forall (fun l => all_space l = true) (split_nl s).
Proof.
  induction s as [|c s IH]; intros H; [repeat constructor|].
  simpl in H. apply andb_true_iff in H. destruct H as [Hc Hs].
  cbn [split_nl]. destruct (Ascii.eqb c LF).
  - constructor; [reflexivity | now apply IH].
  - apply cons_line_blank; [exact Hc | now apply IH].
Qed.

Lemma filter_blank (ls : list string) :
  Forall (fun l => all_space l = true) ls ->
  filter (fun l => nonempty (strip l)) ls = [].
Proof.
  induction 1 as [|l ls Hl _ IH]; [reflexivity|]. simpl.
  now rewrite (proj2 (strip_nil l) Hl).
Qed.





End SecondWriter.
